(** * github-webhook: signature verification and push classification

    A shallow embedding of [server.js] (the webhook receiver) and of the
    signing helper of the test client, together with the properties of
    the verifier, the classifier and the request pipeline.

    Conventions of the embedding.
    - A Node [Buffer] is a [list byte]; the request body is the buffer
      that the raw body parser leaves for a JSON request.
    - A JavaScript string is a Rocq [string]; each [ascii] is one code
      unit, so the strings covered are those whose code units are below
      256 (HTTP header values are exactly of this kind).
    - A value produced by [JSON.parse], or [undefined], is a [value].
    - A JavaScript function that may throw returns an [outcome]; a
      function that also writes to the logger returns a [logged] outcome,
      the log entries being listed in the order they are written.
    - [crypto.createHmac('sha256', k).update(m).digest()] is HMAC-SHA256,
      written out in full (FIPS 180-4, RFC 2104) so that it evaluates. *)

From Stdlib Require Import ZArith NArith List String Ascii Bool Lia.
From Stdlib Require Import Strings.Byte.
From Stdlib Require Import Permutation.
Import ListNotations.

Set Implicit Arguments.

(* ------------------------------------------------------------------ *)
(** * Bytes and 32-bit words *)

Module Bytes.

Definition to_Z (b : byte) : Z := Z.of_N (Byte.to_N b).

(** The low eight bits of [z], as a byte. *)
Definition of_Z (z : Z) : byte :=
  match Byte.of_N (Z.to_N (z mod 256)) with
  | Some b => b
  | None => x00
  end.

Definition of_ascii_list (s : string) : list byte :=
  map byte_of_ascii (list_ascii_of_string s).

End Bytes.

(* ------------------------------------------------------------------ *)
(** * SHA-256 (FIPS 180-4) on 32-bit words held in [Z] *)

Module SHA256.

Local Open Scope Z_scope.

Definition wrap32 (x : Z) : Z := x mod 2 ^ 32.
Definition add32 (x y : Z) : Z := wrap32 (x + y).

Definition rotr (n x : Z) : Z :=
  Z.lor (Z.shiftr x n) (wrap32 (Z.shiftl x (32 - n))).

Definition Ch (x y z : Z) : Z :=
  Z.lxor (Z.land x y) (Z.land (Z.lnot x) z).
Definition Maj (x y z : Z) : Z :=
  Z.lxor (Z.lxor (Z.land x y) (Z.land x z)) (Z.land y z).
Definition bsig0 (x : Z) : Z :=
  Z.lxor (Z.lxor (rotr 2 x) (rotr 13 x)) (rotr 22 x).
Definition bsig1 (x : Z) : Z :=
  Z.lxor (Z.lxor (rotr 6 x) (rotr 11 x)) (rotr 25 x).
Definition ssig0 (x : Z) : Z :=
  Z.lxor (Z.lxor (rotr 7 x) (rotr 18 x)) (Z.shiftr x 3).
Definition ssig1 (x : Z) : Z :=
  Z.lxor (Z.lxor (rotr 17 x) (rotr 19 x)) (Z.shiftr x 10).

Definition K : list Z :=
  [ 0x428A2F98; 0x71374491; 0xB5C0FBCF; 0xE9B5DBA5;
    0x3956C25B; 0x59F111F1; 0x923F82A4; 0xAB1C5ED5;
    0xD807AA98; 0x12835B01; 0x243185BE; 0x550C7DC3;
    0x72BE5D74; 0x80DEB1FE; 0x9BDC06A7; 0xC19BF174;
    0xE49B69C1; 0xEFBE4786; 0x0FC19DC6; 0x240CA1CC;
    0x2DE92C6F; 0x4A7484AA; 0x5CB0A9DC; 0x76F988DA;
    0x983E5152; 0xA831C66D; 0xB00327C8; 0xBF597FC7;
    0xC6E00BF3; 0xD5A79147; 0x06CA6351; 0x14292967;
    0x27B70A85; 0x2E1B2138; 0x4D2C6DFC; 0x53380D13;
    0x650A7354; 0x766A0ABB; 0x81C2C92E; 0x92722C85;
    0xA2BFE8A1; 0xA81A664B; 0xC24B8B70; 0xC76C51A3;
    0xD192E819; 0xD6990624; 0xF40E3585; 0x106AA070;
    0x19A4C116; 0x1E376C08; 0x2748774C; 0x34B0BCB5;
    0x391C0CB3; 0x4ED8AA4A; 0x5B9CCA4F; 0x682E6FF3;
    0x748F82EE; 0x78A5636F; 0x84C87814; 0x8CC70208;
    0x90BEFFFA; 0xA4506CEB; 0xBEF9A3F7; 0xC67178F2 ].

(** The eight working variables, also the chaining value. *)
Record regs : Type :=
  Regs { ra : Z; rb : Z; rc : Z; rd : Z; re : Z; rf : Z; rg : Z; rh : Z }.

Definition initial : regs :=
  Regs 0x6A09E667 0xBB67AE85 0x3C6EF372 0xA54FF53A
       0x510E527F 0x9B05688C 0x1F83D9AB 0x5BE0CD19.

(** Big-endian packing of four bytes, and its inverse. *)
Definition word_of_bytes (bs : list byte) : Z :=
  fold_left (fun acc b => acc * 256 + Bytes.to_Z b) bs 0.

Definition bytes_of_word (w : Z) : list byte :=
  [ Bytes.of_Z (Z.shiftr w 24); Bytes.of_Z (Z.shiftr w 16);
    Bytes.of_Z (Z.shiftr w 8); Bytes.of_Z w ].

(** The sixteen words of a 64-byte block. *)
Fixpoint words_of_block (n : nat) (bs : list byte) : list Z :=
  match n with
  | O => []
  | S n' => word_of_bytes (firstn 4 bs) :: words_of_block n' (skipn 4 bs)
  end.

(** Message schedule: [extend k w] appends [k] further words. *)
Fixpoint extend (k : nat) (w : list Z) : list Z :=
  match k with
  | O => w
  | S k' =>
      let t := List.length w in
      let x := add32 (add32 (ssig1 (nth (t - 2) w 0)) (nth (t - 7) w 0))
                     (add32 (ssig0 (nth (t - 15) w 0)) (nth (t - 16) w 0)) in
      extend k' (w ++ [x])
  end.

Definition schedule (block : list byte) : list Z :=
  extend 48 (words_of_block 16 block).

Definition round (s : regs) (kw : Z * Z) : regs :=
  let t1 := add32 (add32 (add32 (rh s) (bsig1 (re s)))
                         (add32 (Ch (re s) (rf s) (rg s)) (fst kw)))
                  (snd kw) in
  let t2 := add32 (bsig0 (ra s)) (Maj (ra s) (rb s) (rc s)) in
  Regs (add32 t1 t2) (ra s) (rb s) (rc s) (add32 (rd s) t1) (re s) (rf s) (rg s).

Definition compress (hv : regs) (block : list byte) : regs :=
  let s := fold_left round (combine K (schedule block)) hv in
  Regs (add32 (ra hv) (ra s)) (add32 (rb hv) (rb s))
       (add32 (rc hv) (rc s)) (add32 (rd hv) (rd s))
       (add32 (re hv) (re s)) (add32 (rf hv) (rf s))
       (add32 (rg hv) (rg s)) (add32 (rh hv) (rh s)).

(** Padding: a one bit, zeros up to 56 mod 64, the bit length on 64 bits. *)
Definition pad (msg : list byte) : list byte :=
  let len := Z.of_nat (List.length msg) in
  let zeros := Z.to_nat ((55 - len) mod 64) in
  msg ++ [x80] ++ repeat x00 zeros
      ++ bytes_of_word (Z.shiftr (len * 8) 32) ++ bytes_of_word (len * 8).

Fixpoint blocks (n : nat) (hv : regs) (bs : list byte) : regs :=
  match n with
  | O => hv
  | S n' => blocks n' (compress hv (firstn 64 bs)) (skipn 64 bs)
  end.

Definition bytes_of_regs (s : regs) : list byte :=
  bytes_of_word (ra s) ++ bytes_of_word (rb s) ++ bytes_of_word (rc s)
    ++ bytes_of_word (rd s) ++ bytes_of_word (re s) ++ bytes_of_word (rf s)
    ++ bytes_of_word (rg s) ++ bytes_of_word (rh s).

Definition digest (msg : list byte) : list byte :=
  let p := pad msg in
  bytes_of_regs (blocks (Nat.div (List.length p) 64) initial p).

End SHA256.

(* ------------------------------------------------------------------ *)
(** * HMAC (RFC 2104) over SHA-256, block size 64 *)

Module HMAC.

Definition xor_byte (x y : byte) : byte :=
  Bytes.of_Z (Z.lxor (Bytes.to_Z x) (Bytes.to_Z y)).

(** A key longer than a block is hashed first; then zero padded. *)
Definition block_key (key : list byte) : list byte :=
  let k := if Nat.ltb 64 (List.length key) then SHA256.digest key else key in
  k ++ repeat x00 (64 - List.length k).

Definition sha256 (key msg : list byte) : list byte :=
  let k := block_key key in
  SHA256.digest (map (xor_byte x5c) k
                   ++ SHA256.digest (map (xor_byte x36) k ++ msg)).

End HMAC.

(* ------------------------------------------------------------------ *)
(** * Hexadecimal text, as [Buffer] writes and reads it *)

Module Hex.

Local Open Scope N_scope.

(** [digest('hex')] and [toString('hex')] write lowercase digits, taken
    from a table. *)
Definition digits : string := "0123456789abcdef".

Definition digit (n : N) : ascii :=
  match String.get (N.to_nat n) digits with
  | Some c => c
  | None => "f"%char
  end.

Definition hi (b : byte) : N := N.shiftr (Byte.to_N b) 4.
Definition lo (b : byte) : N := N.land (Byte.to_N b) 15.

Fixpoint encode (bs : list byte) : string :=
  match bs with
  | [] => EmptyString
  | b :: rest => String (digit (hi b)) (String (digit (lo b)) (encode rest))
  end.

(** Value of one hex digit; both letter cases are read. *)
Definition unhex (c : ascii) : option N :=
  let n := N_of_ascii c in
  if (48 <=? n) && (n <=? 57) then Some (n - 48)
  else if (97 <=? n) && (n <=? 102) then Some (n - 87)
  else if (65 <=? n) && (n <=? 70) then Some (n - 55)
  else None.

Definition byte_of_nibbles (a b : N) : byte :=
  Bytes.of_Z (Z.of_N (N.lor (N.shiftl a 4) b)).

(** [Buffer.from(s, 'hex')]: digits are read two by two; reading stops
    at the first pair that is not two hex digits, and a trailing single
    character is dropped.  It never throws. *)
Fixpoint decode (s : string) : list byte :=
  match s with
  | String a (String b rest) =>
      match unhex a, unhex b with
      | Some x, Some y => byte_of_nibbles x y :: decode rest
      | _, _ => []
      end
  | _ => []
  end.

End Hex.

(* ------------------------------------------------------------------ *)
(** * JavaScript strings *)

Local Open Scope string_scope.

Module JSString.

Fixpoint drop (n : nat) (s : string) : string :=
  match n, s with
  | S n', String _ s' => drop n' s'
  | _, _ => s
  end.

(** [s.includes(t)]: [t] occurs in [s] at some position. *)
Fixpoint includes (s t : string) : bool :=
  if String.prefix t s then true
  else match s with
       | EmptyString => false
       | String _ s' => includes s' t
       end.

(** [s.replace(pat, rep)] for a string pattern: only the first
    occurrence of [pat], wherever it is, is replaced.  ([rep] is the
    empty string at both call sites, so no [$] pattern is involved.) *)
Fixpoint replace (s pat rep : string) : string :=
  if String.prefix pat s then rep ++ drop (String.length pat) s
  else match s with
       | EmptyString => EmptyString
       | String c s' => String c (replace s' pat rep)
       end.

(** [toLowerCase] on one code unit below 256: the letters A-Z and the
    Latin-1 capitals U+00C0-U+00DE (U+00D7 is the multiplication sign)
    move up by 32; everything else stays. *)
Definition lower_char (c : ascii) : ascii :=
  let n := N_of_ascii c in
  if ((65 <=? n) && (n <=? 90)
      || (192 <=? n) && (n <=? 222) && negb (n =? 215))%N
  then ascii_of_N (n + 32) else c.

Fixpoint toLowerCase (s : string) : string :=
  match s with
  | EmptyString => EmptyString
  | String c s' => String (lower_char c) (toLowerCase s')
  end.

(** UTF-8 encoding of a string of code units below 256, as
    [update(s, 'utf8')] and a string HMAC key are encoded. *)
Fixpoint utf8 (s : string) : list byte :=
  match s with
  | EmptyString => []
  | String c s' =>
      let n := Z.of_N (N_of_ascii c) in
      if (n <? 128)%Z then Bytes.of_Z n :: utf8 s'
      else Bytes.of_Z (Z.lor 192 (Z.shiftr n 6))
             :: Bytes.of_Z (Z.lor 128 (Z.land n 63)) :: utf8 s'
  end.

(** JavaScript truthiness of a string that may be [undefined] or
    [null]: only a non-empty string is truthy. *)
Definition truthy (s : option string) : bool :=
  match s with
  | Some (String _ _) => true
  | _ => false
  end.

(** The string held by a value known to be truthy. *)
Definition text_of (s : option string) : string :=
  match s with
  | Some x => x
  | None => EmptyString
  end.

End JSString.

(* ------------------------------------------------------------------ *)
(** * Results of JavaScript calls and the logger *)

Inductive error : Type := TypeError | RangeError.

Inductive outcome (A : Type) : Type :=
| Returned (a : A)
| Threw (e : error).

Arguments Returned {A} a.
Arguments Threw {A} e.

Definition bind {A B : Type} (x : outcome A) (k : A -> outcome B) : outcome B :=
  match x with
  | Returned a => k a
  | Threw e => Threw e
  end.

Notation "x <- e ;; k" := (bind e (fun x => k))
  (at level 61, e at next level, right associativity).

Inductive level : Type := Info | Warn | Error.

Record entry : Type := Log { lvl : level; text : string }.

(** An outcome together with what was written to the logger on the
    way.  The metadata objects passed to the logger are left out. *)
Definition logged (A : Type) : Type := (outcome A * list entry)%type.

Definition pure {A : Type} (a : A) : logged A := (Returned a, []).
Definition lift {A : Type} (x : outcome A) : logged A := (x, []).
Definition write (l : level) (s : string) : logged unit := (Returned tt, [Log l s]).

Definition bindL {A B : Type} (x : logged A) (k : A -> logged B) : logged B :=
  match fst x with
  | Returned a => (fst (k a), (snd x ++ snd (k a))%list)
  | Threw e => (Threw e, snd x)
  end.

Notation "x <~ e ;; k" := (bindL e (fun x => k))
  (at level 61, e at next level, right associativity).
Notation "e ;;; k" := (bindL e (fun _ => k))
  (at level 61, right associativity).

Definition when (b : bool) (x : logged unit) : logged unit :=
  if b then x else pure tt.

(* ------------------------------------------------------------------ *)
(** * Signature verification *)

Fixpoint bytes_eqb (a b : list byte) : bool :=
  match a, b with
  | [], [] => true
  | x :: a', y :: b' => Byte.eqb x y && bytes_eqb a' b'
  | _, _ => false
  end.

(** [crypto.timingSafeEqual]: a [RangeError] when the two buffers have
    different byte lengths, otherwise whether they are equal. *)
Definition timingSafeEqual (a b : list byte) : outcome bool :=
  if Nat.eqb (List.length a) (List.length b)
  then Returned (bytes_eqb a b) else Threw RangeError.

(** [createHmac('sha256', key).update(data).digest('hex')]. *)
Definition hmac_hex (key : string) (data : list byte) : string :=
  Hex.encode (HMAC.sha256 (JSString.utf8 key) data).

(** server.js, [verifyGitHubSignature]; the module constant
    [WEBHOOK_SECRET] (an environment variable, possibly unset) is passed
    explicitly, [payload] is the raw request body. *)
Definition verifyGitHubSignature (WEBHOOK_SECRET : option string)
    (payload : list byte) (signature : option string) : logged bool :=
  if negb (JSString.truthy WEBHOOK_SECRET) then
    write Warn "WEBHOOK_SECRET not configured - skipping signature verification" ;;;
    pure true
  else if negb (JSString.truthy signature) then
    write Error "No signature provided in request headers" ;;;
    pure false
  else
    let expectedSignature :=
      hmac_hex (JSString.text_of WEBHOOK_SECRET) payload in
    let providedSignature :=
      JSString.replace (JSString.text_of signature) "sha256=" "" in
    isValid <~ lift (timingSafeEqual (Hex.decode expectedSignature)
                                     (Hex.decode providedSignature)) ;;
    when (negb isValid) (write Error "Invalid webhook signature detected") ;;;
    pure isValid.

(** The test client, [WebhookTester.generateSignature]; [null] is [None]. *)
Definition generateSignature (payload : string) (secret : option string)
    : option string :=
  if negb (JSString.truthy secret) then None
  else
    let signature := hmac_hex (JSString.text_of secret) (JSString.utf8 payload) in
    Some ("sha256=" ++ signature).

(* ------------------------------------------------------------------ *)
(** * Parsed payloads *)

(** What [JSON.parse] yields, and [undefined] (the result of reading a
    property that is not there).  An object lists its own properties,
    each key once.  A number is held as an integer: the handler never
    computes with the numbers of a payload, it only compares them. *)
Unset Elimination Schemes.
Inductive value : Type :=
| JUndefined
| JNull
| JBool (b : bool)
| JNum (n : Z)
| JStr (s : string)
| JArr (elems : list value)
| JObj (members : list (string * value)).
Set Elimination Schemes.

Fixpoint lookup (k : string) (members : list (string * value)) : value :=
  match members with
  | [] => JUndefined
  | (k', v) :: rest => if String.eqb k k' then v else lookup k rest
  end.

(** Property read [v.k].  Reading from [undefined] or [null] throws;
    arrays and strings have a [length]; apart from that only an object
    has the properties the handler asks for. *)
Definition get (v : value) (k : string) : outcome value :=
  match v with
  | JUndefined | JNull => Threw TypeError
  | JObj members => Returned (lookup k members)
  | JArr elems =>
      Returned (if String.eqb k "length"
                then JNum (Z.of_nat (List.length elems)) else JUndefined)
  | JStr s =>
      Returned (if String.eqb k "length"
                then JNum (Z.of_nat (String.length s)) else JUndefined)
  | JBool _ | JNum _ => Returned JUndefined
  end.

(** The comparison used by [Set] and by [Array.prototype.includes].
    Arrays and objects are compared by identity, and the arrays and
    objects of a parsed payload are all distinct. *)
Definition sameValueZero (x y : value) : bool :=
  match x, y with
  | JUndefined, JUndefined => true
  | JNull, JNull => true
  | JBool a, JBool b => Bool.eqb a b
  | JNum a, JNum b => Z.eqb a b
  | JStr a, JStr b => String.eqb a b
  | _, _ => false
  end.

(** [set.add(x)] on a [Set] kept in insertion order. *)
Definition set_add (set : list value) (x : value) : list value :=
  if existsb (sameValueZero x) set then set else (set ++ [x])%list.

(** [array.forEach(f)] threading the state [f] updates; a throw in [f]
    ends the loop. *)
Fixpoint forEach {S : Type} (f : S -> value -> outcome S)
    (elems : list value) (s : S) : outcome S :=
  match elems with
  | [] => Returned s
  | x :: rest => s' <- f s x ;; forEach f rest s'
  end.

(** Truthiness of a value. *)
Definition truthy (v : value) : bool :=
  match v with
  | JUndefined | JNull => false
  | JBool b => b
  | JNum n => negb (Z.eqb n 0)
  | JStr s => negb (String.eqb s "")
  | JArr _ | JObj _ => true
  end.

(** [Array.isArray(v)], and the elements of an array. *)
Definition isArray (v : value) : bool :=
  match v with JArr _ => true | _ => false end.

Definition elements (v : value) : list value :=
  match v with JArr elems => elems | _ => [] end.

(** One of the three blocks of the loop body of [extractModifiedFiles]:
    [if (commit.k && Array.isArray(commit.k)) commit.k.forEach(file =>
    modifiedFiles.add(file))]. *)
Definition add_list (k : string) (commit : value) (set : list value)
    : outcome (list value) :=
  files <- get commit k ;;
  if truthy files && isArray files
  then Returned (fold_left set_add (elements files) set)
  else Returned set.

(** server.js, [extractModifiedFiles]; the result is [Array.from] of the
    set, its members in insertion order. *)
Definition extractModifiedFiles (payload : value) : outcome (list value) :=
  commits <- get payload "commits" ;;
  if truthy commits && isArray commits
  then forEach (fun set commit =>
                  set1 <- add_list "added" commit set ;;
                  set2 <- add_list "modified" commit set1 ;;
                  add_list "removed" commit set2)
               (elements commits) []
  else Returned [].

(** [file.includes(needle)]: the string method on a string, the array
    method on an array, and a [TypeError] on anything else. *)
Definition call_includes (file : value) (needle : string) : outcome bool :=
  match file with
  | JStr s => Returned (JSString.includes s needle)
  | JArr elems => Returned (existsb (sameValueZero (JStr needle)) elems)
  | _ => Threw TypeError
  end.

(** [file.toLowerCase()]: only strings have it. *)
Definition call_toLowerCase (file : value) : outcome value :=
  match file with
  | JStr s => Returned (JStr (JSString.toLowerCase s))
  | _ => Threw TypeError
  end.

(** [a || b] where both sides may throw. *)
Definition orelse (a b : outcome bool) : outcome bool :=
  x <- a ;; if x then Returned true else b.

(** [array.some(p)]: stops at the first element [p] accepts. *)
Fixpoint some (p : value -> outcome bool) (elems : list value) : outcome bool :=
  match elems with
  | [] => Returned false
  | x :: rest => b <- p x ;; if b then Returned true else some p rest
  end.

Record interest : Type := Interest {
  indexHtml : bool;
  packageJson : bool;
  configFiles : bool;
  dockerfiles : bool
}.

(** server.js, [checkFilesOfInterest]. *)
Definition checkFilesOfInterest (modifiedFiles : list value) : outcome interest :=
  i <- some (fun file => call_includes file "index.html") modifiedFiles ;;
  p <- some (fun file => call_includes file "package.json") modifiedFiles ;;
  c <- some (fun file =>
               orelse (call_includes file ".env")
              (orelse (call_includes file "config.")
              (orelse (call_includes file ".yml")
                      (call_includes file ".yaml"))))
            modifiedFiles ;;
  d <- some (fun file =>
               orelse (lower <- call_toLowerCase file ;;
                       call_includes lower "dockerfile")
                      (call_includes file "docker-compose"))
            modifiedFiles ;;
  Returned (Interest i p c d).

Record pushResult : Type := PushResult {
  processed : bool;
  repository : value;
  branch : string;
  modifiedFiles : list value;
  filesOfInterest : interest
}.

(** [ref.replace('refs/heads/', '')]: only a string has [replace]. *)
Definition call_replace (ref : value) (pat rep : string) : outcome string :=
  match ref with
  | JStr s => Returned (JSString.replace s pat rep)
  | _ => Threw TypeError
  end.

(** server.js, [processPushEvent]. *)
Definition processPushEvent (payload : value) : logged pushResult :=
  repo <~ lift (r <- get payload "repository" ;; get r "full_name") ;;
  pusher <~ lift (p <- get payload "pusher" ;; get p "name") ;;
  ref <~ lift (get payload "ref") ;;
  br <~ lift (call_replace ref "refs/heads/" "") ;;
  files <~ lift (extractModifiedFiles payload) ;;
  ofInterest <~ lift (checkFilesOfInterest files) ;;
  commitCount <~ lift (c <- get payload "commits" ;; get c "length") ;;
  write Info "Push event processed" ;;;
  when (indexHtml ofInterest)
    (write Info "index.html was modified - triggering frontend deployment") ;;;
  when (packageJson ofInterest)
    (write Info "package.json was modified - triggering dependency update") ;;;
  when (configFiles ofInterest)
    (write Info "Configuration files were modified - triggering config reload") ;;;
  when (dockerfiles ofInterest)
    (write Info "Docker files were modified - triggering container rebuild") ;;;
  pure (PushResult true repo br files ofInterest).

(* ------------------------------------------------------------------ *)
(** * The request pipeline *)

(** What the handler reads of a request: the headers
    [X-Hub-Signature-256], [X-GitHub-Event], [X-GitHub-Delivery]
    ([None] when a header is not sent) and the raw body. *)
Record request : Type := Request {
  signature : option string;
  event : option string;
  delivery : option string;
  body : list byte
}.

Inductive responseBody : Type :=
| Failure (error message : string)
| Ignored (message : string) (processed : bool)
| Processed (message : string) (delivery : option string) (result : pushResult).

Record response : Type := Response { status : Z; json : responseBody }.

(** A value inside a template literal. *)
Definition interpolate (s : option string) : string :=
  match s with
  | Some x => x
  | None => "undefined"
  end.

Section Pipeline.

(** The configured secret, and [JSON.parse(body.toString())], which
    either yields a value or throws a [SyntaxError] ([None]). *)
Variable WEBHOOK_SECRET : option string.
Variable JSON_parse : list byte -> option value.

(** The body of the [try] block of [app.post('/webhook')]. *)
Definition webhook_try (req : request) : logged response :=
  write Info "Webhook received" ;;;
  ok <~ verifyGitHubSignature WEBHOOK_SECRET (body req) (signature req) ;;
  if negb ok then
    write Error "Webhook signature verification failed" ;;;
    pure (Response 401 (Failure "Unauthorized" "Invalid signature"))
  else
    match JSON_parse (body req) with
    | None =>
        write Error "Failed to parse webhook payload" ;;;
        pure (Response 400 (Failure "Bad Request" "Invalid JSON payload"))
    | Some payload =>
        if negb (match event req with
                 | Some e => String.eqb e "push"
                 | None => false
                 end)
        then
          write Info ("Ignoring " ++ interpolate (event req) ++ " event") ;;;
          pure (Response 200
                  (Ignored (interpolate (event req) ++ " event ignored") false))
        else
          result <~ processPushEvent payload ;;
          pure (Response 200
                  (Processed "Webhook processed successfully"
                             (delivery req) result))
    end.

(** [app.post('/webhook')]: the [catch] clause answers 500. *)
Definition webhook (req : request) : response * list entry :=
  match webhook_try req with
  | (Returned res, log) => (res, log)
  | (Threw _, log) =>
      (Response 500 (Failure "Internal Server Error" "Failed to process webhook"),
       (log ++ [Log Error "Webhook processing error"])%list)
  end.

End Pipeline.

(* ------------------------------------------------------------------ *)
(** * The test client *)

(** [s.split(sep)] for a separator of one character: the pieces between
    the separators, of which there is always at least one. *)
Fixpoint split (s : string) (sep : ascii) : list string :=
  match s with
  | EmptyString => [EmptyString]
  | String c s' =>
      if Ascii.eqb c sep then EmptyString :: split s' sep
      else match split s' sep with
           | piece :: pieces => String c piece :: pieces
           | [] => [String c EmptyString]
           end
  end.

(** [pieces[i]], [undefined] past the end. *)
Definition at_index (pieces : list string) (i : nat) : value :=
  match nth_error pieces i with
  | Some piece => JStr piece
  | None => JUndefined
  end.

(** [array.filter((_, i) => p(i))], [i] counting from [start]. *)
Fixpoint filter_index {A : Type} (p : nat -> bool) (start : nat) (l : list A)
    : list A :=
  match l with
  | [] => []
  | x :: rest =>
      if p start then x :: filter_index p (S start) rest
      else filter_index p (S start) rest
  end.

(** The [options] of [createPushPayload]: each key may be left out. *)
Record pushOptions : Type := PushOptions {
  opt_repository : option string;
  opt_branch : option string;
  opt_pusher : option string;
  opt_files : option (list string)
}.

Record pushConfig : Type := PushConfig {
  cfg_repository : string;
  cfg_branch : string;
  cfg_pusher : string;
  cfg_files : list string
}.

Definition or_default {A : Type} (given : option A) (default : A) : A :=
  match given with
  | Some x => x
  | None => default
  end.

(** [{ ...defaults, ...options }]. *)
Definition merge_defaults (options : pushOptions) : pushConfig :=
  PushConfig (or_default (opt_repository options) "testuser/test-repo")
             (or_default (opt_branch options) "main")
             (or_default (opt_pusher options) "testuser")
             (or_default (opt_files options) ["index.html"; "src/app.js"]).

(** The [author] and [committer] objects. *)
Definition person (pusher : string) : value :=
  JObj [("name", JStr pusher);
        ("email", JStr "test@example.com");
        ("username", JStr pusher)].

(** The commit object, used for [commits[0]] and for [head_commit];
    [timestamp] is what [new Date().toISOString()] gave. *)
Definition test_commit (config : pushConfig) (timestamp : string) : value :=
  JObj [("id", JStr "1234567890abcdef1234567890abcdef12345678");
        ("tree_id", JStr "abcdef1234567890abcdef1234567890abcdef12");
        ("distinct", JBool true);
        ("message", JStr "Test commit message");
        ("timestamp", JStr timestamp);
        ("url", JStr ("https://github.com/" ++ cfg_repository config
                        ++ "/commit/1234567890abcdef1234567890abcdef12345678"));
        ("author", person (cfg_pusher config));
        ("committer", person (cfg_pusher config));
        ("added",
         JArr (map JStr (filter_index (fun i => Nat.eqb (Nat.modulo i 3) 0) 0
                           (cfg_files config))));
        ("removed",
         JArr (map JStr (filter_index (fun i => Nat.eqb (Nat.modulo i 3) 1) 0
                           (cfg_files config))));
        ("modified",
         JArr (map JStr (filter_index (fun i => Nat.eqb (Nat.modulo i 3) 2) 0
                           (cfg_files config))))].

(** The test client, [WebhookTester.createPushPayload]; the two
    timestamps are those of the two calls of [new Date()]. *)
Definition createPushPayload (options : pushOptions) (now1 now2 : string)
    : value :=
  let config := merge_defaults options in
  let pieces := split (cfg_repository config) "/" in
  JObj [("ref", JStr ("refs/heads/" ++ cfg_branch config));
        ("before", JStr "0000000000000000000000000000000000000000");
        ("after", JStr "1234567890abcdef1234567890abcdef12345678");
        ("repository",
         JObj [("id", JNum 123456789);
               ("node_id", JStr "MDEwOlJlcG9zaXRvcnkxMjM0NTY3ODk=");
               ("name", at_index pieces 1);
               ("full_name", JStr (cfg_repository config));
               ("private", JBool false);
               ("owner",
                JObj [("name", at_index pieces 0);
                      ("email", JStr "test@example.com");
                      ("login", at_index pieces 0)]);
               ("html_url", JStr ("https://github.com/" ++ cfg_repository config));
               ("clone_url",
                JStr ("https://github.com/" ++ cfg_repository config ++ ".git"));
               ("default_branch", JStr (cfg_branch config))]);
        ("pusher",
         JObj [("name", JStr (cfg_pusher config));
               ("email", JStr "test@example.com")]);
        ("sender",
         JObj [("login", JStr (cfg_pusher config));
               ("id", JNum 12345678);
               ("type", JStr "User")]);
        ("commits", JArr [test_commit config now1]);
        ("head_commit", test_commit config now2)].

(** The request [WebhookTester.sendWebhook] writes when it is called
    without [options]: the signature header is set only when a signature
    was generated; [payloadString] is [JSON.stringify(payload)] and
    [uuid] what [crypto.randomUUID()] gave.  The tester's [this.secret]
    is passed explicitly. *)
Definition sendWebhook_request (secret : option string)
    (eventType payloadString uuid : string) : request :=
  let signature := generateSignature payloadString secret in
  Request (if JSString.truthy signature then signature else None)
          (Some eventType) (Some uuid) (JSString.utf8 payloadString).

(* ------------------------------------------------------------------ *)
(** * Notions used to state the properties *)

(** The signature header of the wire contract for a body [P] under the
    secret [S]: ["sha256="] and the HMAC-SHA256 of [P] in lowercase hex. *)
Definition sign (P : list byte) (S : string) : string :=
  "sha256=" ++ hmac_hex S P.

(** Flipping bit [k] (0 is the lowest) of a character, and of the
    character at index [i] of a string; a string shorter than [i + 1]
    is left as it is. *)
Definition flip_char (k : nat) (c : ascii) : ascii :=
  ascii_of_N (N.lxor (N_of_ascii c) (2 ^ N.of_nat k)).

Fixpoint flip_bit (i k : nat) (s : string) {struct s} : string :=
  match s with
  | EmptyString => EmptyString
  | String c s' =>
      match i with
      | O => String (flip_char k c) s'
      | S i' => String c (flip_bit i' k s')
      end
  end.

(** [t] occurs in [s]. *)
Definition contains (s t : string) : Prop :=
  exists pre post, s = pre ++ t ++ post.

(** Two characters that are the same up to the case of an ASCII letter,
    and two strings that are so character by character. *)
Definition same_letter (a b : ascii) : bool :=
  let x := N_of_ascii a in
  let y := N_of_ascii b in
  ((x =? y)
   || (65 <=? x) && (x <=? 90) && (y =? x + 32)
   || (65 <=? y) && (y <=? 90) && (x =? y + 32))%N.

Fixpoint eq_nocase (a b : string) : bool :=
  match a, b with
  | EmptyString, EmptyString => true
  | String x a', String y b' => same_letter x y && eq_nocase a' b'
  | _, _ => false
  end.

(** [t] occurs in [s] when the case of letters is ignored. *)
Definition contains_nocase (s t : string) : Prop :=
  exists pre mid post, s = pre ++ mid ++ post /\ eq_nocase mid t = true.

(** A string of lowercase ASCII letters. *)
Fixpoint lowercase_letters (t : string) : bool :=
  match t with
  | EmptyString => true
  | String c t' =>
      ((97 <=? N_of_ascii c) && (N_of_ascii c <=? 122))%N && lowercase_letters t'
  end.

Definition is_string (v : value) : bool :=
  match v with JStr _ => true | _ => false end.

(** A value whose properties can be read: anything but [null] and
    [undefined]. *)
Definition readable (v : value) : bool :=
  match v with JUndefined | JNull => false | _ => true end.

(** The list a commit record holds under the key [k]; a list that is
    missing, [null] or not an array counts as empty. *)
Definition listed (commit : value) (k : string) : list value :=
  match get commit k with
  | Returned (JArr elems) => elems
  | _ => []
  end.

(** All that a commit record lists as added, modified or removed. *)
Definition changed (commit : value) : list value :=
  (listed commit "added" ++ listed commit "modified"
     ++ listed commit "removed")%list.

(** A commit record: a readable value whose lists hold paths only. *)
Definition commit_record (commit : value) : bool :=
  readable commit && forallb is_string (changed commit).

(** The lines [processPushEvent] writes after its first one, for the
    flags that are set. *)
Definition triggers (flags : interest) : list entry :=
  ((if indexHtml flags
    then [Log Info "index.html was modified - triggering frontend deployment"]
    else [])
   ++ (if packageJson flags
       then [Log Info "package.json was modified - triggering dependency update"]
       else [])
   ++ (if configFiles flags
       then [Log Info "Configuration files were modified - triggering config reload"]
       else [])
   ++ (if dockerfiles flags
       then [Log Info "Docker files were modified - triggering container rebuild"]
       else []))%list.


(** ** Sample payloads *)

(** The two bytes of the body [{}]. *)
Definition sample_body : list byte := Bytes.of_ascii_list "{}".

Definition sample_commit : value :=
  JObj [("added", JArr [JStr "index.html"]);
        ("modified", JArr [JStr "src/app.js"]);
        ("removed", JArr [])].

(** A commit record without [added] and with [removed] set to [null]. *)
Definition sparse_commit : value :=
  JObj [("modified", JArr [JStr "index.html"; JStr "package.json"]);
        ("removed", JNull)].

Definition push_payload (ref : string) (commits : value) : value :=
  JObj [("ref", JStr ref);
        ("repository", JObj [("full_name", JStr "octo/repo")]);
        ("pusher", JObj [("name", JStr "octo")]);
        ("commits", commits)].

(** ** Proof steps used more than once *)

Ltac nibble_cases n H :=
  destruct n as
    [| [[[[? | ? |] | [? | ? |] |] | [[? | ? |] | [? | ? |] |] |]
       | [[[? | ? |] | [? | ? |] |] | [[? | ? |] | [? | ? |] |] |] |]];
  try (exfalso; lia).

Ltac bit_cases k H :=
  destruct k as [| [| [| [| [| [| [| [| ?]]]]]]]]; [.. | exfalso; lia].

(* ================================================================== *)
(** * Properties *)

(** ** Test vectors (FIPS 180-4, RFC 4231) *)

Example sha256_abc :
  Hex.encode (SHA256.digest (Bytes.of_ascii_list "abc"))
  = "ba7816bf8f01cfea414140de5dae2223b00361a396177a9cb410ff61f20015ad"%string.
Proof. vm_compute. reflexivity. Qed.

Example sha256_two_blocks :
  Hex.encode (SHA256.digest (Bytes.of_ascii_list
     "abcdbcdecdefdefgefghfghighijhijkijkljklmklmnlmnomnopnopq"))
  = "248d6a61d20638b8e5c026930c3e6039a33ce45964ff2167f6ecedd419db06c1"%string.
Proof. vm_compute. reflexivity. Qed.

Example hmac_rfc4231_case6 :
  Hex.encode (HMAC.sha256 (repeat xaa 131)
                (Bytes.of_ascii_list
                   "Test Using Larger Than Block-Size Key - Hash Key First"))
  = "60e431591ee0b67f0d8a26aacbf5b77f8e0bc6213728c5140546040f0ee37f54"%string.
Proof. vm_compute. reflexivity. Qed.

Example hmac_rfc4231_case2 :
  Hex.encode (HMAC.sha256 (Bytes.of_ascii_list "Jefe")
                          (Bytes.of_ascii_list "what do ya want for nothing?"))
  = "5bdcc146bf60754e6a042426089575c75a003f089d2739839dec58b964ec3843"%string.
Proof. vm_compute. reflexivity. Qed.

(** ** Hexadecimal text *)

Lemma unhex_digit_hi (b : byte) : Hex.unhex (Hex.digit (Hex.hi b)) = Some (Hex.hi b).
Proof. destruct b; reflexivity. Qed.

Lemma unhex_digit_lo (b : byte) : Hex.unhex (Hex.digit (Hex.lo b)) = Some (Hex.lo b).
Proof. destruct b; reflexivity. Qed.

Lemma byte_of_nibbles_hi_lo (b : byte) : Hex.byte_of_nibbles (Hex.hi b) (Hex.lo b) = b.
Proof. destruct b; reflexivity. Qed.

Lemma hi_bound (b : byte) : (Hex.hi b < 16)%N.
Proof. destruct b; reflexivity. Qed.

Lemma lo_bound (b : byte) : (Hex.lo b < 16)%N.
Proof. destruct b; reflexivity. Qed.

(** Reading back what [digest('hex')] wrote gives the digest bytes. *)
Lemma decode_encode (bs : list byte) : Hex.decode (Hex.encode bs) = bs.
Proof.
  induction bs as [| b rest IH]; [reflexivity |].
  cbn [Hex.encode Hex.decode].
  now rewrite unhex_digit_hi, unhex_digit_lo, byte_of_nibbles_hi_lo, IH.
Qed.

Lemma encode_length (bs : list byte) :
  String.length (Hex.encode bs) = 2 * List.length bs.
Proof.
  induction bs as [| b rest IH]; [reflexivity |].
  cbn [Hex.encode String.length List.length]. lia.
Qed.

(** ** Buffers *)

Lemma bytes_eqb_eq (a b : list byte) : bytes_eqb a b = true <-> a = b.
Proof.
  revert b; induction a as [| x a IH]; intros [| y b]; cbn [bytes_eqb];
    try (split; [discriminate | congruence]); [tauto |].
  rewrite andb_true_iff, IH. split.
  - intros [Hxy ->]. apply Byte.byte_dec_bl in Hxy. now subst.
  - intros [= -> ->]. split; [apply Byte.byte_dec_lb |]; reflexivity.
Qed.

Lemma bytes_eqb_refl (a : list byte) : bytes_eqb a a = true.
Proof. now apply bytes_eqb_eq. Qed.

Lemma bytes_eqb_neq (a b : list byte) : a <> b -> bytes_eqb a b = false.
Proof.
  intros H. destruct (bytes_eqb a b) eqn:E; [| reflexivity].
  now apply bytes_eqb_eq in E.
Qed.

(** ** The digest has 32 bytes *)

Lemma digest_length (msg : list byte) : List.length (SHA256.digest msg) = 32.
Proof. reflexivity. Qed.

Lemma hmac_length (key msg : list byte) : List.length (HMAC.sha256 key msg) = 32.
Proof. apply digest_length. Qed.

Lemma hmac_hex_length (key : string) (data : list byte) :
  String.length (hmac_hex key data) = 64.
Proof. unfold hmac_hex. now rewrite encode_length, hmac_length. Qed.

(** ** Strings *)

Lemma prefix_append (p s : string) : String.prefix p (p ++ s) = true.
Proof.
  induction p as [| c p IH]; cbn [append String.prefix].
  - now destruct s.
  - destruct (ascii_dec c c); [exact IH | congruence].
Qed.

Lemma drop_append (p s : string) : JSString.drop (String.length p) (p ++ s) = s.
Proof. induction p as [| c p IH]; cbn; [now destruct s | exact IH]. Qed.

(** A pattern at the very start of a string is the occurrence removed. *)
Lemma replace_leading (p s : string) : JSString.replace (p ++ s) p "" = s.
Proof.
  destruct p as [| c p].
  - cbn [append]. destruct s; reflexivity.
  - cbn [append]. unfold JSString.replace; fold JSString.replace.
    change (String c (p ++ s)) with (String c p ++ s).
    now rewrite prefix_append, drop_append.
Qed.

(** ** The verifier *)

(** With a secret configured and a non-empty header, the verifier
    compares the 32 digest bytes with whatever [Buffer.from] reads from
    the header once the first ["sha256="] is removed; the comparison
    throws when that is not 32 bytes. *)
Lemma verify_checked (S T : string) (P : list byte) :
  JSString.truthy (Some S) = true ->
  JSString.truthy (Some T) = true ->
  verifyGitHubSignature (Some S) P (Some T)
  = let provided := Hex.decode (JSString.replace T "sha256=" "") in
    if Nat.eqb (List.length provided) 32 then
      if bytes_eqb (HMAC.sha256 (JSString.utf8 S) P) provided
      then (Returned true, [])
      else (Returned false, [Log Error "Invalid webhook signature detected"])
    else (Threw RangeError, []).
Proof.
  intros HS HT.
  unfold verifyGitHubSignature. rewrite HS, HT. cbn [negb JSString.text_of].
  unfold hmac_hex, timingSafeEqual.
  rewrite decode_encode, hmac_length.
  set (provided := Hex.decode _). cbv zeta.
  rewrite Nat.eqb_sym.
  destruct (Nat.eqb (List.length provided) 32); [| reflexivity].
  destruct (bytes_eqb _ provided); reflexivity.
Qed.

(** C3 - round trip of signing and verifying: for every raw payload [P]
    and every configured (non-empty) secret [S], the verifier accepts
    the header ["sha256="] followed by the lowercase hex of
    HMAC-SHA256(S, P), returning [true] and logging no error. *)
Theorem verify_accepts_sign (S : string) (P : list byte) :
  JSString.truthy (Some S) = true ->
  verifyGitHubSignature (Some S) P (Some (sign P S)) = (Returned true, []).
Proof.
  intros HS. rewrite verify_checked by (exact HS || reflexivity).
  unfold sign. rewrite replace_leading. unfold hmac_hex.
  rewrite decode_encode. cbv zeta.
  now rewrite hmac_length, bytes_eqb_refl.
Qed.

Lemma verify_accepts_sign_witness :
  verifyGitHubSignature (Some "s") sample_body (Some (sign sample_body "s"))
  = (Returned true, []).
Proof. apply (@verify_accepts_sign "s" sample_body). reflexivity. Defined.

(** The header the test client sends is the one of the wire contract
    for the UTF-8 bytes of the payload string. *)
Lemma generateSignature_sign (payload S : string) :
  JSString.truthy (Some S) = true ->
  generateSignature payload (Some S) = Some (sign (JSString.utf8 payload) S).
Proof. destruct S; [discriminate | reflexivity]. Qed.

(** The digest is written with the digits [0-9a-f] only. *)
Lemma digit_lowercase (b : byte) :
  In (Hex.digit (Hex.hi b)) (list_ascii_of_string Hex.digits)
  /\ In (Hex.digit (Hex.lo b)) (list_ascii_of_string Hex.digits).
Proof.
  assert (H : forall n, (n < 16)%N ->
                        In (Hex.digit n) (list_ascii_of_string Hex.digits)).
  { intros n Hn. nibble_cases n Hn; cbv; tauto. }
  split; apply H; [apply hi_bound | apply lo_bound].
Qed.

Lemma encode_lowercase (bs : list byte) (c : ascii) :
  In c (list_ascii_of_string (Hex.encode bs)) ->
  In c (list_ascii_of_string Hex.digits).
Proof.
  induction bs as [| b rest IH]; [intros [] |].
  cbn [Hex.encode list_ascii_of_string].
  intros [<- | [<- | H]]; [apply digit_lowercase .. | now apply IH].
Qed.

(** C4 - absent token, absent secret: with a secret configured a request
    without signature header is refused ([false]); without a configured
    secret (unset, or set to the empty string) every request is accepted
    ([true]), whatever its header. *)
Theorem verify_absent_cases (P : list byte) :
  (forall S, JSString.truthy S = true ->
             fst (verifyGitHubSignature S P None) = Returned false)
  /\ (forall S T, JSString.truthy S = false ->
                  fst (verifyGitHubSignature S P T) = Returned true).
Proof.
  split.
  - intros [[| c S] |]; try discriminate. reflexivity.
  - intros [[| c S] |] T; try discriminate; reflexivity.
Qed.

Lemma verify_absent_cases_witness :
  fst (verifyGitHubSignature (Some "s") sample_body None) = Returned false
  /\ fst (verifyGitHubSignature None sample_body (Some "sha256=00"))
     = Returned true.
Proof.
  split.
  - apply (proj1 (verify_absent_cases sample_body)). reflexivity.
  - apply (proj2 (verify_absent_cases sample_body)). reflexivity.
Defined.

(** Absence of the secret is reported at warning level on every call. *)
Lemma verify_unconfigured_warns (S T : option string) (P : list byte) :
  JSString.truthy S = false ->
  verifyGitHubSignature S P T
  = (Returned true,
     [Log Warn "WEBHOOK_SECRET not configured - skipping signature verification"]).
Proof. destruct S as [[| c S] |]; try discriminate; reflexivity. Qed.

(** C1 - a malformed token: with the secret ["s"] and the body [{}], the
    header ["sha256=zz"] is read by [Buffer.from] as an empty buffer;
    [timingSafeEqual] then throws a [RangeError] instead of the verifier
    returning [false]. *)
Theorem verify_malformed_token_throws :
  verifyGitHubSignature (Some "s") sample_body (Some "sha256=zz")
  = (Threw RangeError, []).
Proof. vm_compute. reflexivity. Qed.

(** Whenever the token does not decode to 32 bytes the verifier throws. *)
Lemma verify_wrong_length_throws (S T : string) (P : list byte) :
  JSString.truthy (Some S) = true ->
  JSString.truthy (Some T) = true ->
  List.length (Hex.decode (JSString.replace T "sha256=" "")) <> 32 ->
  verifyGitHubSignature (Some S) P (Some T) = (Threw RangeError, []).
Proof.
  intros HS HT Hlen. rewrite verify_checked by assumption. cbv zeta.
  apply Nat.eqb_neq in Hlen. now rewrite Hlen.
Qed.

(** The pipeline answers such a request with 500, not 401. *)
Lemma webhook_malformed_token_500 (parse : list byte -> option value) :
  fst (webhook (Some "s") parse
         (Request (Some "sha256=zz") (Some "push") None sample_body))
  = Response 500 (Failure "Internal Server Error" "Failed to process webhook").
Proof. vm_compute. reflexivity. Qed.

(** Text after the 64 digits is not read: a token that is not a hex
    string is accepted when its first 64 characters are the digest. *)
Lemma decode_encode_junk (bs : list byte) (c : ascii) (tail : string) :
  Hex.unhex c = None -> Hex.decode (Hex.encode bs ++ String c tail) = bs.
Proof.
  intros Hc. induction bs as [| b rest IH].
  - cbn [Hex.encode append Hex.decode]. rewrite Hc. now destruct tail.
  - cbn [Hex.encode append Hex.decode].
    now rewrite unhex_digit_hi, unhex_digit_lo, byte_of_nibbles_hi_lo, IH.
Qed.

(** X4 - After the right token, text that starts with a character that is
    no hex digit is not read: the verifier returns [true]. *)
Lemma verify_trailing_junk_accepted (S tail : string) (P : list byte) (c : ascii) :
  JSString.truthy (Some S) = true ->
  Hex.unhex c = None ->
  verifyGitHubSignature (Some S) P (Some (sign P S ++ String c tail))
  = (Returned true, []).
Proof.
  intros HS Hc. rewrite verify_checked by (exact HS || reflexivity).
  unfold sign.
  change (("sha256=" ++ hmac_hex S P) ++ String c tail)
    with ("sha256=" ++ (hmac_hex S P ++ String c tail)).
  rewrite replace_leading. unfold hmac_hex.
  rewrite decode_encode_junk by exact Hc. cbv zeta.
  now rewrite hmac_length, bytes_eqb_refl.
Qed.

(** ** Tokens that differ from the right one in a single bit *)

Lemma unhex_bound (c : ascii) (v : N) : Hex.unhex c = Some v -> (v < 16)%N.
Proof.
  unfold Hex.unhex.
  repeat match goal with
         | |- context [if ?b then _ else _] => destruct b eqn:?
         end; intros [= <-];
    repeat match goal with
           | H : (_ && _)%bool = true |- _ => apply andb_true_iff in H; destruct H
           | H : (_ <=? _)%N = true |- _ => apply N.leb_le in H
           end; lia.
Qed.

(** A flipped digit that is again a hex digit keeps its value exactly
    when the flipped bit is the letter-case bit. *)
Lemma flip_digit_value (n v : N) (k : nat) :
  (n < 16)%N -> k < 8 ->
  Hex.unhex (flip_char k (Hex.digit n)) = Some v -> (v = n <-> k = 5).
Proof.
  intros Hn Hk. nibble_cases n Hn; bit_cases k Hk; vm_compute;
    intros [= <-]; split; (discriminate || reflexivity).
Qed.

Lemma byte_of_nibbles_value (a b : N) :
  (a < 16)%N -> (b < 16)%N -> Byte.to_N (Hex.byte_of_nibbles a b) = (16 * a + b)%N.
Proof.
  intros Ha Hb. nibble_cases a Ha; nibble_cases b Hb; reflexivity.
Qed.

Lemma byte_of_nibbles_inj (a b a' b' : N) :
  (a < 16)%N -> (b < 16)%N -> (a' < 16)%N -> (b' < 16)%N ->
  Hex.byte_of_nibbles a b = Hex.byte_of_nibbles a' b' -> a = a' /\ b = b'.
Proof.
  intros Ha Hb Ha' Hb' E. apply (f_equal Byte.to_N) in E.
  rewrite !byte_of_nibbles_value in E by assumption. lia.
Qed.

(** Flipping a bit of one digit of a digest in hex, the result being a
    hex digit: the text still decodes to as many bytes, and to the same
    bytes exactly when the flip only changed the case of a letter. *)
Lemma decode_flip_bit (d : list byte) (j k : nat) (c' : ascii) (v : N) :
  k < 8 ->
  String.get j (flip_bit j k (Hex.encode d)) = Some c' ->
  Hex.unhex c' = Some v ->
  List.length (Hex.decode (flip_bit j k (Hex.encode d))) = List.length d
  /\ (Hex.decode (flip_bit j k (Hex.encode d)) = d <-> k = 5).
Proof.
  intros Hk. revert j. induction d as [| x rest IH]; intros j Hget Hv.
  - cbn in Hget. discriminate.
  - destruct j as [| [| j]]; cbn [Hex.encode flip_bit String.get Hex.decode] in *.
    + injection Hget as <-. rewrite Hv, unhex_digit_lo, decode_encode.
      split; [reflexivity |].
      rewrite <- (flip_digit_value (hi_bound x) Hk Hv). split.
      * intros [= E].
        assert (E' : Hex.byte_of_nibbles v (Hex.lo x)
                     = Hex.byte_of_nibbles (Hex.hi x) (Hex.lo x))
          by now rewrite byte_of_nibbles_hi_lo.
        apply byte_of_nibbles_inj in E';
          eauto using hi_bound, lo_bound, unhex_bound. tauto.
      * intros ->. now rewrite byte_of_nibbles_hi_lo.
    + injection Hget as <-. rewrite Hv, unhex_digit_hi, decode_encode.
      split; [reflexivity |].
      rewrite <- (flip_digit_value (lo_bound x) Hk Hv). split.
      * intros [= E].
        assert (E' : Hex.byte_of_nibbles (Hex.hi x) v
                     = Hex.byte_of_nibbles (Hex.hi x) (Hex.lo x))
          by now rewrite byte_of_nibbles_hi_lo.
        apply byte_of_nibbles_inj in E';
          eauto using hi_bound, lo_bound, unhex_bound. tauto.
      * intros ->. now rewrite byte_of_nibbles_hi_lo.
    + rewrite unhex_digit_hi, unhex_digit_lo, byte_of_nibbles_hi_lo.
      destruct (IH j Hget Hv) as [Hlen Heq]. cbn [List.length].
      split; [now rewrite Hlen |].
      rewrite <- Heq. split; [now intros [= E] | now intros ->].
Qed.

Lemma flip_bit_append (p s : string) (i k : nat) :
  String.length p <= i ->
  flip_bit i k (p ++ s) = p ++ flip_bit (i - String.length p) k s.
Proof.
  revert i; induction p as [| c p IH]; intros i Hi; cbn [append String.length].
  - now rewrite Nat.sub_0_r.
  - destruct i as [| i]; [cbn in Hi; lia |].
    cbn [flip_bit Nat.sub]. cbn in Hi. now rewrite IH by lia.
Qed.

Lemma get_append (p s : string) (i : nat) :
  String.length p <= i ->
  String.get i (p ++ s) = String.get (i - String.length p) s.
Proof.
  revert i; induction p as [| c p IH]; intros i Hi; cbn [append String.length].
  - now rewrite Nat.sub_0_r.
  - destruct i as [| i]; [cbn in Hi; lia |].
    cbn [String.get Nat.sub]. cbn in Hi. now rewrite IH by lia.
Qed.

(** C2, as amended - a single flipped bit in one of the 64 hex digits:
    for every payload [P], configured secret [S], digit index [i] (7 or
    more, after ["sha256="]) and bit [k], when the flipped character is
    again a hex digit, the verifier returns [false], except when the
    flipped bit is the letter-case bit (bit 5): then the token decodes to
    the same digest and the verifier returns [true]. *)
Theorem verify_flipped_digit (S : string) (P : list byte) (i k : nat)
    (c' : ascii) (v : N) :
  JSString.truthy (Some S) = true ->
  7 <= i -> k < 8 ->
  String.get i (flip_bit i k (sign P S)) = Some c' ->
  Hex.unhex c' = Some v ->
  verifyGitHubSignature (Some S) P (Some (flip_bit i k (sign P S)))
  = if Nat.eqb k 5 then (Returned true, [])
    else (Returned false, [Log Error "Invalid webhook signature detected"]).
Proof.
  intros HS Hi Hk Hget Hv. unfold sign in *.
  rewrite flip_bit_append in * by exact Hi.
  rewrite get_append in Hget by exact Hi.
  rewrite verify_checked; [| exact HS | reflexivity].
  rewrite replace_leading. cbv zeta. unfold hmac_hex in *.
  destruct (decode_flip_bit _ _ Hk Hget Hv) as [Hlen Heq].
  rewrite Hlen, hmac_length. cbn [Nat.eqb].
  destruct (Nat.eqb_spec k 5) as [E | E].
  - apply Heq in E. rewrite E. now rewrite bytes_eqb_refl.
  - rewrite bytes_eqb_neq; [reflexivity |].
    intros C. apply E, Heq. now symmetry.
Qed.

Lemma verify_flipped_digit_witness :
  verifyGitHubSignature (Some "s") sample_body
    (Some (flip_bit 7 0 (sign sample_body "s")))
  = (Returned false, [Log Error "Invalid webhook signature detected"]).
Proof.
  apply (@verify_flipped_digit "s" sample_body 7 0 "0"%char 0%N);
    solve [reflexivity | lia | vm_compute; reflexivity].
Defined.

(** C2, as stated, fails: under the secret ["s"] the right token for the
    body [{}] has a [c] at index 10; flipping bit 5 there gives [C], a
    different token, which the verifier accepts. *)
Lemma verify_case_flip_accepted :
  flip_bit 10 5 (sign sample_body "s") <> sign sample_body "s"
  /\ verifyGitHubSignature (Some "s") sample_body
       (Some (flip_bit 10 5 (sign sample_body "s")))
     = (Returned true, []).
Proof. split; [vm_compute; discriminate | vm_compute; reflexivity]. Qed.

(** A flip inside ["sha256="], or one that leaves no hex digit, makes
    the verifier throw. *)
Example verify_flipped_prefix_throws :
  verifyGitHubSignature (Some "s") sample_body
    (Some (flip_bit 0 0 (sign sample_body "s")))
  = (Threw RangeError, [])
  /\ verifyGitHubSignature (Some "s") sample_body
       (Some (flip_bit 7 6 (sign sample_body "s")))
     = (Threw RangeError, []).
Proof. split; vm_compute; reflexivity. Qed.

(** ** Substring search *)

Lemma prefix_spec (t s : string) :
  String.prefix t s = true <-> exists post, s = t ++ post.
Proof.
  revert s; induction t as [| c t IH]; intros s.
  - split; [intros _; now exists s | intros _; now destruct s].
  - destruct s as [| d s]; cbn [String.prefix append].
    + split; [discriminate | intros [post [=]]].
    + destruct (ascii_dec c d) as [<- | Hcd].
      * rewrite IH. split; intros [post E]; exists post; congruence.
      * split; [discriminate | intros [post [= E _]]; congruence].
Qed.

Lemma includes_unfold (s t : string) :
  JSString.includes s t
  = if String.prefix t s then true
    else match s with
         | EmptyString => false
         | String _ s' => JSString.includes s' t
         end.
Proof. destruct s; reflexivity. Qed.

(** [s.includes(t)] is true exactly when [t] occurs in [s]. *)
Lemma includes_contains (s t : string) :
  JSString.includes s t = true <-> contains s t.
Proof.
  induction s as [| c s IH]; rewrite includes_unfold;
    destruct (String.prefix t _) eqn:Hp.
  - split; [intros _ | reflexivity].
    apply prefix_spec in Hp as [post E]. now exists "", post.
  - split; [discriminate |]. intros [pre [post E]].
    destruct pre; [| discriminate]. cbn [append] in E.
    enough (String.prefix t "" = true) by congruence.
    apply prefix_spec. now exists post.
  - split; [intros _ | reflexivity].
    apply prefix_spec in Hp as [post E]. now exists "", post.
  - rewrite IH. split.
    + intros [pre [post E]]. exists (String c pre), post. cbn [append]. congruence.
    + intros [pre [post E]]. destruct pre as [| d pre].
      * cbn [append] in E.
        enough (String.prefix t (String c s) = true) by congruence.
        apply prefix_spec. now exists post.
      * injection E as _ E. now exists pre, post.
Qed.

(** ** Lowercasing *)

Lemma lower_char_code (c : ascii) :
  N_of_ascii (JSString.lower_char c)
  = (let n := N_of_ascii c in
     if ((65 <=? n) && (n <=? 90)
         || (192 <=? n) && (n <=? 222) && negb (n =? 215))
     then n + 32 else n)%N.
Proof.
  unfold JSString.lower_char. cbv zeta.
  destruct (_ || _)%bool eqn:E; [| reflexivity].
  apply N_ascii_embedding.
  apply orb_true_iff in E as [E | E];
    repeat (apply andb_true_iff in E as [E ?]);
    repeat match goal with H : (_ <=? _)%N = true |- _ => apply N.leb_le in H end;
    lia.
Qed.

Lemma N_of_ascii_inj (a b : ascii) : N_of_ascii a = N_of_ascii b -> a = b.
Proof.
  intros E. rewrite <- (ascii_N_embedding a), <- (ascii_N_embedding b).
  now rewrite E.
Qed.

(** Lowering gives a given lowercase letter exactly for that letter in
    either case. *)
Lemma lower_char_letter (c x : ascii) :
  (97 <= N_of_ascii x <= 122)%N ->
  JSString.lower_char c = x <-> same_letter c x = true.
Proof.
  intros Hx. unfold same_letter. cbv zeta. split.
  - intros <-. rewrite lower_char_code in *. cbv zeta in *.
    destruct (_ || _)%bool eqn:E in Hx |- *.
    + apply orb_true_iff in E as [E | E];
        repeat (apply andb_true_iff in E as [E ?]);
        repeat match goal with
               | H : (_ <=? _)%N = true |- _ => apply N.leb_le in H
               end; [| lia].
      apply orb_true_iff. left. apply orb_true_iff. right.
      rewrite !andb_true_iff, !N.leb_le, N.eqb_eq. lia.
    + now rewrite N.eqb_refl.
  - intros H. apply N_of_ascii_inj. rewrite lower_char_code. cbv zeta.
    repeat (apply orb_true_iff in H as [H | H]);
      repeat (apply andb_true_iff in H as [H ?]);
      repeat match goal with
             | H : (_ <=? _)%N = true |- _ => apply N.leb_le in H
             | H : (_ =? _)%N = true |- _ => apply N.eqb_eq in H
             end.
    + rewrite H.
      replace ((65 <=? N_of_ascii x) && (N_of_ascii x <=? 90))%N with false
        by (symmetry; apply andb_false_iff; right; apply N.leb_gt; lia).
      replace (192 <=? N_of_ascii x)%N with false
        by (symmetry; apply N.leb_gt; lia).
      reflexivity.
    + replace ((65 <=? N_of_ascii c) && (N_of_ascii c <=? 90))%N with true
        by (symmetry; rewrite andb_true_iff, !N.leb_le; lia).
      cbn [orb]. lia.
    + lia.
Qed.

Lemma toLowerCase_eq_nocase (mid t : string) :
  lowercase_letters t = true ->
  JSString.toLowerCase mid = t <-> eq_nocase mid t = true.
Proof.
  revert t; induction mid as [| c mid IH]; intros [| x t] Ht;
    cbn [JSString.toLowerCase eq_nocase]; try (split; discriminate);
    [tauto |].
  cbn [lowercase_letters] in Ht.
  apply andb_true_iff in Ht as [Hx Ht]. apply andb_true_iff in Hx as [Hx1 Hx2].
  apply N.leb_le in Hx1, Hx2.
  rewrite andb_true_iff, <- IH by exact Ht.
  rewrite <- (lower_char_letter c x) by lia.
  split; [intros [= -> ->]; tauto | intros [-> ->]; reflexivity].
Qed.

Lemma toLowerCase_append (a b : string) :
  JSString.toLowerCase (a ++ b) = JSString.toLowerCase a ++ JSString.toLowerCase b.
Proof. induction a as [| c a IH]; cbn; [reflexivity | now rewrite IH]. Qed.

Lemma toLowerCase_split (s a b : string) :
  JSString.toLowerCase s = a ++ b ->
  exists s1 s2, s = s1 ++ s2 /\ JSString.toLowerCase s1 = a
                /\ JSString.toLowerCase s2 = b.
Proof.
  revert s; induction a as [| x a IH]; intros s E.
  - now exists "", s.
  - destruct s as [| c s]; [discriminate |].
    cbn [JSString.toLowerCase append] in E. injection E as Ec E.
    destruct (IH _ E) as [s1 [s2 [-> [H1 H2]]]].
    exists (String c s1), s2. cbn [JSString.toLowerCase append].
    repeat split; congruence.
Qed.

(** [s.toLowerCase().includes(t)], for [t] in lowercase letters, is true
    exactly when [t] occurs in [s] up to case. *)
Lemma includes_lower_contains_nocase (s t : string) :
  lowercase_letters t = true ->
  JSString.includes (JSString.toLowerCase s) t = true <-> contains_nocase s t.
Proof.
  intros Ht. rewrite includes_contains. split.
  - intros [pre [post E]].
    apply toLowerCase_split in E as [s1 [s23 [-> [_ E]]]].
    apply toLowerCase_split in E as [s2 [s3 [-> [E _]]]].
    exists s1, s2, s3. split; [reflexivity |].
    now apply toLowerCase_eq_nocase.
  - intros [pre [mid [post [-> E]]]].
    apply toLowerCase_eq_nocase in E; [| exact Ht].
    exists (JSString.toLowerCase pre), (JSString.toLowerCase post).
    now rewrite !toLowerCase_append, E.
Qed.

(** ** Files of interest *)

Lemma some_strings (p : value -> outcome bool) (q : string -> bool)
    (paths : list string) :
  (forall s, p (JStr s) = Returned (q s)) ->
  some p (map JStr paths) = Returned (existsb q paths).
Proof.
  intros Hp. induction paths as [| s paths IH]; [reflexivity |].
  cbn [map some existsb bind]. rewrite Hp. cbn [bind].
  destruct (q s); [reflexivity | exact IH].
Qed.

Lemma existsb_Exists {A : Type} (q : A -> bool) (Q : A -> Prop) (l : list A) :
  (forall x, q x = true <-> Q x) ->
  existsb q l = true <-> Exists Q l.
Proof.
  intros HqQ. rewrite existsb_exists, Exists_exists.
  split; intros [x [Hin Hx]]; exists x; split; auto; now apply HqQ.
Qed.

(** C7 - the four flags: for every list of paths the classifier returns
    flags such that [indexHtml] holds iff some path contains
    ["index.html"], [packageJson] iff some path contains
    ["package.json"], [configFiles] iff some path contains [".env"],
    ["config."], [".yml"] or [".yaml"] (as written), and [dockerfiles]
    iff some path contains ["dockerfile"] up to case or
    ["docker-compose"] as written.  In particular ["Dockerfile.prod"]
    sets [dockerfiles], and ["dockerfile-compose.yml"] sets both
    [configFiles] and [dockerfiles]. *)
Theorem checkFilesOfInterest_flags (paths : list string) :
  (exists flags,
      checkFilesOfInterest (map JStr paths) = Returned flags
      /\ (indexHtml flags = true
          <-> Exists (fun p => contains p "index.html") paths)
      /\ (packageJson flags = true
          <-> Exists (fun p => contains p "package.json") paths)
      /\ (configFiles flags = true
          <-> Exists (fun p => contains p ".env" \/ contains p "config."
                              \/ contains p ".yml" \/ contains p ".yaml") paths)
      /\ (dockerfiles flags = true
          <-> Exists (fun p => contains_nocase p "dockerfile"
                              \/ contains p "docker-compose") paths))
  /\ checkFilesOfInterest [JStr "Dockerfile.prod"]
     = Returned (Interest false false false true)
  /\ checkFilesOfInterest [JStr "dockerfile-compose.yml"]
     = Returned (Interest false false true true).
Proof.
  split; [| split; reflexivity].
  unfold checkFilesOfInterest.
  rewrite (some_strings _ (fun s => JSString.includes s "index.html"))
    by reflexivity.
  rewrite (some_strings _ (fun s => JSString.includes s "package.json"))
    by reflexivity.
  rewrite (some_strings _
             (fun s => JSString.includes s ".env"
                       || JSString.includes s "config."
                       || JSString.includes s ".yml"
                       || JSString.includes s ".yaml")).
  2: { intros s. cbn [call_includes orelse bind].
       repeat (destruct (JSString.includes s _); try reflexivity). }
  rewrite (some_strings _
             (fun s => JSString.includes (JSString.toLowerCase s) "dockerfile"
                       || JSString.includes s "docker-compose")).
  2: { intros s. cbn [call_includes call_toLowerCase orelse bind].
       destruct (JSString.includes (JSString.toLowerCase s) _); reflexivity. }
  cbn [bind]. eexists. split; [reflexivity |].
  cbn [indexHtml packageJson configFiles dockerfiles].
  split; [| split; [| split]]; apply existsb_Exists; intros p.
  - apply includes_contains.
  - apply includes_contains.
  - rewrite !orb_true_iff, !includes_contains. tauto.
  - rewrite orb_true_iff, includes_lower_contains_nocase by reflexivity.
    rewrite includes_contains. tauto.
Qed.

(** Without paths no flag is set. *)
Lemma checkFilesOfInterest_empty :
  checkFilesOfInterest [] = Returned (Interest false false false false).
Proof. reflexivity. Qed.

(** ** The set of changed files *)

Lemma sameValueZero_eq (x y : value) : sameValueZero x y = true -> x = y.
Proof.
  destruct x, y; cbn [sameValueZero]; try discriminate; try reflexivity; intros H.
  - apply Bool.eqb_prop in H. now subst.
  - apply Z.eqb_eq in H. now subst.
  - apply String.eqb_eq in H. now subst.
Qed.

Lemma sameValueZero_string (x : value) : is_string x = true -> sameValueZero x x = true.
Proof. destruct x; try discriminate. intros _. apply String.eqb_refl. Qed.

Lemma set_add_in (set : list value) (x y : value) :
  In y (set_add set x) <-> In y set \/ y = x.
Proof.
  unfold set_add. destruct (existsb _ set) eqn:E.
  - apply existsb_exists in E as [z [Hz Hxz]].
    apply sameValueZero_eq in Hxz. subst z.
    split; [tauto | intros [H | ->]; assumption].
  - rewrite in_app_iff. cbn [In]. intuition congruence.
Qed.

Lemma fold_set_add_in (elems set : list value) (y : value) :
  In y (fold_left set_add elems set) <-> In y set \/ In y elems.
Proof.
  revert set; induction elems as [| x elems IH]; intros set; cbn [fold_left In].
  - tauto.
  - rewrite IH, set_add_in. intuition congruence.
Qed.

Lemma set_add_NoDup (set : list value) (x : value) :
  is_string x = true -> NoDup set -> NoDup (set_add set x).
Proof.
  intros Hx Hset. unfold set_add. destruct (existsb _ set) eqn:E; [assumption |].
  apply NoDup_app; [assumption | repeat constructor; intros [] |].
  intros a Ha [Hxa | []]. subst a.
  enough (existsb (sameValueZero x) set = true) by congruence.
  apply existsb_exists. exists x. split; [assumption |].
  now apply sameValueZero_string.
Qed.

Lemma fold_set_add_NoDup (elems set : list value) :
  forallb is_string elems = true -> NoDup set ->
  NoDup (fold_left set_add elems set).
Proof.
  revert set; induction elems as [| x elems IH]; intros set Hs Hset;
    cbn [fold_left]; [assumption |].
  cbn [forallb] in Hs. apply andb_true_iff in Hs as [Hx Hs].
  apply IH; [assumption |]. now apply set_add_NoDup.
Qed.

Lemma add_list_listed (k : string) (commit : value) (set : list value) :
  readable commit = true ->
  add_list k commit set = Returned (fold_left set_add (listed commit k) set).
Proof.
  intros Hr. unfold add_list, listed.
  destruct (get commit k) as [v | e] eqn:E.
  - cbn [bind]. destruct v; cbn [isArray]; rewrite ?andb_false_r; reflexivity.
  - destruct commit; discriminate.
Qed.

(** On readable commit records the loop of [extractModifiedFiles] adds
    every listed entry, commit after commit. *)
Lemma forEach_commits (commits : list value) (set : list value) :
  forallb readable commits = true ->
  forEach (fun set commit =>
             set1 <- add_list "added" commit set ;;
             set2 <- add_list "modified" commit set1 ;;
             add_list "removed" commit set2)
          commits set
  = Returned (fold_left set_add (flat_map changed commits) set).
Proof.
  revert set; induction commits as [| c commits IH]; intros set Hr;
    [reflexivity |].
  cbn [forallb] in Hr. apply andb_true_iff in Hr as [Hc Hr].
  cbn [forEach flat_map].
  do 3 (rewrite add_list_listed by exact Hc; cbn [bind]).
  rewrite IH by exact Hr.
  unfold changed. now rewrite !fold_left_app.
Qed.

Lemma extractModifiedFiles_closed_form (payload : value) (commits : list value) :
  get payload "commits" = Returned (JArr commits) ->
  forallb readable commits = true ->
  extractModifiedFiles payload
  = Returned (fold_left set_add (flat_map changed commits) []).
Proof.
  intros Hget Hr. unfold extractModifiedFiles. rewrite Hget.
  cbn [bind truthy isArray andb elements]. now apply forEach_commits.
Qed.

Lemma commit_records_readable (commits : list value) :
  forallb commit_record commits = true -> forallb readable commits = true.
Proof.
  rewrite !forallb_forall. intros H c Hc.
  specialize (H c Hc). now apply andb_true_iff in H.
Qed.

Lemma commit_records_strings (commits : list value) :
  forallb commit_record commits = true ->
  forallb is_string (flat_map changed commits) = true.
Proof.
  rewrite !forallb_forall. intros H v Hv.
  apply in_flat_map in Hv as [c [Hc Hv]].
  specialize (H c Hc). apply andb_true_iff in H as [_ H].
  rewrite forallb_forall in H. now apply H.
Qed.

Lemma in_changed (commit file : value) :
  In file (changed commit)
  <-> In file (listed commit "added") \/ In file (listed commit "modified")
      \/ In file (listed commit "removed").
Proof. unfold changed. now rewrite !in_app_iff. Qed.

(** On a push event the result has no duplicates and holds exactly the
    listed entries. *)
Lemma changed_files_characterised (payload : value) (commits : list value) :
  get payload "commits" = Returned (JArr commits) ->
  forallb commit_record commits = true ->
  exists files,
    extractModifiedFiles payload = Returned files
    /\ NoDup files
    /\ forall file,
         In file files <-> exists commit, In commit commits /\ In file (changed commit).
Proof.
  intros Hget Hrec. eexists. split; [| split].
  - apply extractModifiedFiles_closed_form;
      [exact Hget | now apply commit_records_readable].
  - apply fold_set_add_NoDup; [now apply commit_records_strings | constructor].
  - intros file. rewrite fold_set_add_in, in_flat_map. cbn [In]. tauto.
Qed.

(** C6 - the changed file set: for every push event (a payload whose
    [commits] is an array of commit records) [extractModifiedFiles]
    returns, without throwing, a list without duplicates whose members
    are exactly the entries of the added, modified and removed lists of
    all commit records, a list that is missing or not an array
    contributing nothing. *)
Theorem extractModifiedFiles_union (payload : value) (commits : list value) :
  get payload "commits" = Returned (JArr commits) ->
  forallb commit_record commits = true ->
  exists files,
    extractModifiedFiles payload = Returned files
    /\ NoDup files
    /\ forall file,
         In file files
         <-> exists commit,
               In commit commits
               /\ (In file (listed commit "added")
                   \/ In file (listed commit "modified")
                   \/ In file (listed commit "removed")).
Proof.
  intros Hget Hrec.
  destruct (changed_files_characterised _ Hget Hrec) as [files [E [N M]]].
  exists files. split; [exact E | split; [exact N |]].
  intros file. rewrite M.
  split; intros [c [Hc Hf]]; exists c; split; try assumption;
    now apply in_changed.
Qed.

Lemma extractModifiedFiles_union_witness :
  exists files,
    extractModifiedFiles
      (push_payload "refs/heads/main" (JArr [sample_commit; sparse_commit]))
    = Returned files
    /\ NoDup files
    /\ forall file,
         In file files
         <-> exists commit,
               In commit [sample_commit; sparse_commit]
               /\ (In file (listed commit "added")
                   \/ In file (listed commit "modified")
                   \/ In file (listed commit "removed")).
Proof.
  apply (@extractModifiedFiles_union
           (push_payload "refs/heads/main" (JArr [sample_commit; sparse_commit]))
           [sample_commit; sparse_commit]); reflexivity.
Defined.

(** The scenario of one commit adding [index.html] and modifying
    [src/app.js]. *)
Example extract_scenario :
  extractModifiedFiles (push_payload "refs/heads/main" (JArr [sample_commit]))
  = Returned [JStr "index.html"; JStr "src/app.js"]
  /\ checkFilesOfInterest [JStr "index.html"; JStr "src/app.js"]
     = Returned (Interest true false false false).
Proof. split; reflexivity. Qed.

(** C8 - order of the commits: for every push event and every
    permutation of its commit list, [extractModifiedFiles] returns on
    both, without throwing, lists that are permutations of each other:
    the same files, each once. *)
Theorem extractModifiedFiles_permutation (payload payload' : value)
    (commits commits' : list value) :
  get payload "commits" = Returned (JArr commits) ->
  get payload' "commits" = Returned (JArr commits') ->
  forallb commit_record commits = true ->
  Permutation commits commits' ->
  exists files files',
    extractModifiedFiles payload = Returned files
    /\ extractModifiedFiles payload' = Returned files'
    /\ Permutation files files'.
Proof.
  intros Hget Hget' Hrec Hperm.
  assert (Hrec' : forallb commit_record commits' = true).
  { rewrite forallb_forall in *. intros c Hc. apply Hrec.
    eapply Permutation_in; [symmetry; exact Hperm | exact Hc]. }
  destruct (changed_files_characterised _ Hget Hrec) as [files [E [N M]]].
  destruct (changed_files_characterised _ Hget' Hrec') as [files' [E' [N' M']]].
  exists files, files'. split; [exact E | split; [exact E' |]].
  apply NoDup_Permutation; try assumption.
  intros file. rewrite M, M'.
  split; intros [c [Hc Hf]]; exists c; split; try assumption.
  - eapply Permutation_in; [exact Hperm | exact Hc].
  - eapply Permutation_in; [symmetry; exact Hperm | exact Hc].
Qed.

Lemma extractModifiedFiles_permutation_witness :
  exists files files',
    extractModifiedFiles
      (push_payload "refs/heads/main" (JArr [sample_commit; sparse_commit]))
    = Returned files
    /\ extractModifiedFiles
         (push_payload "refs/heads/main" (JArr [sparse_commit; sample_commit]))
       = Returned files'
    /\ Permutation files files'.
Proof.
  apply (@extractModifiedFiles_permutation
           (push_payload "refs/heads/main" (JArr [sample_commit; sparse_commit]))
           (push_payload "refs/heads/main" (JArr [sparse_commit; sample_commit]))
           [sample_commit; sparse_commit] [sparse_commit; sample_commit]);
    solve [reflexivity | apply perm_swap].
Defined.

(** The two lists need not be in the same order. *)
Example extract_order_differs :
  extractModifiedFiles
    (push_payload "refs/heads/main" (JArr [sample_commit; sparse_commit]))
  = Returned [JStr "index.html"; JStr "src/app.js"; JStr "package.json"]
  /\ extractModifiedFiles
       (push_payload "refs/heads/main" (JArr [sparse_commit; sample_commit]))
     = Returned [JStr "index.html"; JStr "package.json"; JStr "src/app.js"].
Proof. split; reflexivity. Qed.

(** C10 - no commit list: for every payload that can be read and whose
    [commits] is missing or is anything but an array,
    [extractModifiedFiles] returns the empty list and does not throw. *)
Theorem extractModifiedFiles_no_commits (payload commits : value) :
  get payload "commits" = Returned commits ->
  isArray commits = false ->
  extractModifiedFiles payload = Returned [].
Proof.
  intros Hget Harr. unfold extractModifiedFiles. rewrite Hget. cbn [bind].
  rewrite Harr. now rewrite andb_false_r.
Qed.

Lemma extractModifiedFiles_no_commits_witness :
  extractModifiedFiles (JObj [("ref", JStr "refs/heads/main")]) = Returned []
  /\ extractModifiedFiles (JObj [("commits", JStr "none")]) = Returned [].
Proof.
  split.
  - apply (@extractModifiedFiles_no_commits
             (JObj [("ref", JStr "refs/heads/main")]) JUndefined); reflexivity.
  - apply (@extractModifiedFiles_no_commits
             (JObj [("commits", JStr "none")]) (JStr "none")); reflexivity.
Defined.

(** A payload that cannot be read ([null]) never reaches
    [extractModifiedFiles]: [processPushEvent] reads
    [payload.repository] first and throws. *)
Lemma processPushEvent_unreadable (payload : value) :
  readable payload = false ->
  processPushEvent payload = (Threw TypeError, []).
Proof. destruct payload; (discriminate || reflexivity). Qed.

(** Inside [processPushEvent] a missing commit list is not tolerated:
    [payload.commits.length] throws. *)
Example processPushEvent_without_commits :
  processPushEvent (push_payload "refs/heads/main" JUndefined)
  = (Threw TypeError, []).
Proof. reflexivity. Qed.

(** ** The reported branch *)

Lemma bindL_lift {A B : Type} (x : outcome A) (k : A -> logged B) :
  bindL (lift x) k
  = match x with
    | Returned a => k a
    | Threw e => (Threw e, [])
    end.
Proof.
  destruct x as [a | e]; [| reflexivity].
  unfold bindL, lift. cbn [fst snd app]. now destruct (k a).
Qed.

Lemma bindL_write {B : Type} (l : level) (s : string) (k : unit -> logged B) :
  bindL (write l s) k = (fst (k tt), Log l s :: snd (k tt)).
Proof. reflexivity. Qed.

Lemma bindL_when {B : Type} (b : bool) (l : level) (s : string)
    (k : unit -> logged B) :
  bindL (when b (write l s)) k
  = (fst (k tt), ((if b then [Log l s] else []) ++ snd (k tt))%list).
Proof. destruct b; reflexivity. Qed.

Ltac step_lift :=
  rewrite bindL_lift;
  match goal with
  | |- context [match ?x with Returned _ => _ | Threw _ => _ end] =>
      let E := fresh "E" in destruct x eqn:E
  end.

(** What [processPushEvent] returns and logs when nothing throws. *)
Lemma processPushEvent_returned (payload : value) (r : pushResult) :
  fst (processPushEvent payload) = Returned r ->
  exists ref files flags,
    get payload "ref" = Returned (JStr ref)
    /\ extractModifiedFiles payload = Returned files
    /\ checkFilesOfInterest files = Returned flags
    /\ processed r = true
    /\ branch r = JSString.replace ref "refs/heads/" ""
    /\ modifiedFiles r = files
    /\ filesOfInterest r = flags.
Proof.
  unfold processPushEvent.
  step_lift; [| discriminate].
  step_lift; [| discriminate].
  step_lift; [| discriminate].
  step_lift; [| discriminate].
  step_lift; [| discriminate].
  step_lift; [| discriminate].
  step_lift; [| discriminate].
  rewrite bindL_write, !bindL_when. cbn [fst pure].
  intros [= <-].
  match goal with H : call_replace ?v _ _ = Returned _ |- _ =>
    destruct v; try discriminate; injection H as <- end.
  eexists _, _, _. repeat split; eassumption || reflexivity.
Qed.

(** A call of [processPushEvent] shows: it throws or it writes its
    log line. *)
Lemma processPushEvent_observable (payload : value) :
  (exists e, fst (processPushEvent payload) = Threw e)
  \/ In (Log Info "Push event processed") (snd (processPushEvent payload)).
Proof.
  unfold processPushEvent.
  do 7 (step_lift; [| left; eexists; reflexivity]).
  right. rewrite bindL_write. left. reflexivity.
Qed.

(** Where the reported branch is the expected one: a ref in which
    ["refs/heads/"] does not occur is reported as it is, and a ref that
    starts with ["refs/heads/"] is reported without it. *)
Lemma replace_absent (s pat : string) :
  ~ contains s pat -> JSString.replace s pat "" = s.
Proof.
  induction s as [| c s IH]; intros Hno.
  - cbn [JSString.replace]. destruct (String.prefix pat "") eqn:Hp; [| reflexivity].
    exfalso. apply Hno. apply prefix_spec in Hp as [post E]. now exists "", post.
  - cbn [JSString.replace]. destruct (String.prefix pat (String c s)) eqn:Hp.
    + exfalso. apply Hno. apply prefix_spec in Hp as [post E]. now exists "", post.
    + rewrite IH; [reflexivity |].
      intros [pre [post E]]. apply Hno. exists (String c pre), post.
      cbn [append]. congruence.
Qed.

Lemma branch_of_head_ref (name : string) (commits : list value) (r : pushResult) :
  fst (processPushEvent (push_payload ("refs/heads/" ++ name) (JArr commits)))
  = Returned r ->
  branch r = name.
Proof.
  intros H. apply processPushEvent_returned in H
    as [ref [files [flags [Href [_ [_ [_ [Hb _]]]]]]]].
  injection Href as <-. rewrite Hb.
  exact (replace_leading "refs/heads/" name).
Qed.

(** C5 - the reported branch: for the ref ["refs/tags/refs/heads/v1"]
    (a tag named [refs/heads/v1]), which does not start with
    ["refs/heads/"], the pipeline answers 200 with the branch
    ["refs/tags/v1"] and not with the ref unchanged: [replace] removes
    the first occurrence wherever it is. *)
Theorem branch_inner_occurrence_removed :
  fst (webhook None
         (fun _ => Some (push_payload "refs/tags/refs/heads/v1" (JArr [])))
         (Request None (Some "push") (Some "d-1") sample_body))
  = Response 200
      (Processed "Webhook processed successfully" (Some "d-1")
         (PushResult true (JStr "octo/repo") "refs/tags/v1" []
            (Interest false false false false))).
Proof. reflexivity. Qed.

(** ** Events other than push *)

Lemma verify_log_levels (S T : option string) (P : list byte) (e : entry) :
  In e (snd (verifyGitHubSignature S P T)) -> lvl e <> Info.
Proof.
  destruct (JSString.truthy S) eqn:HS.
  - destruct S as [S |]; [| discriminate].
    destruct (JSString.truthy T) eqn:HT.
    + destruct T as [T |]; [| discriminate].
      rewrite verify_checked by assumption. cbv zeta.
      destruct (Nat.eqb _ 32); [| intros []].
      destruct (bytes_eqb _ _); [intros [] | intros [<- | []]; discriminate].
    + assert (E : verifyGitHubSignature (Some S) P T
                  = (Returned false,
                     [Log Error "No signature provided in request headers"])).
      { destruct S; [discriminate |].
        destruct T as [[| d T] |]; (discriminate || reflexivity). }
      rewrite E. intros [<- | []]; discriminate.
  - rewrite verify_unconfigured_warns by exact HS.
    intros [<- | []]; discriminate.
Qed.

(** C9 - events other than push: for every request that passes
    verification and whose body parses, with an event type other than
    ["push"] (or none), the answer is 200 with [processed] false and the
    message naming the event type; the log holds the reception, what the
    verifier wrote and the line about the ignored event, and no line of
    [processPushEvent], which is not called. *)
Theorem webhook_ignores_other_events (secret : option string)
    (parse : list byte -> option value) (req : request) (payload : value) :
  fst (verifyGitHubSignature secret (body req) (signature req)) = Returned true ->
  parse (body req) = Some payload ->
  event req <> Some "push" ->
  webhook secret parse req
  = (Response 200 (Ignored (interpolate (event req) ++ " event ignored") false),
     (Log Info "Webhook received"
        :: snd (verifyGitHubSignature secret (body req) (signature req))
        ++ [Log Info ("Ignoring " ++ interpolate (event req) ++ " event")])%list)
  /\ ~ In (Log Info "Push event processed") (snd (webhook secret parse req)).
Proof.
  intros Hver Hparse Hev.
  assert (Hpush : match event req with
                  | Some e => String.eqb e "push"
                  | None => false
                  end = false).
  { destruct (event req) as [e |]; [| reflexivity].
    apply String.eqb_neq. congruence. }
  assert (Hweb : webhook secret parse req
    = (Response 200 (Ignored (interpolate (event req) ++ " event ignored") false),
       (Log Info "Webhook received"
          :: snd (verifyGitHubSignature secret (body req) (signature req))
          ++ [Log Info ("Ignoring " ++ interpolate (event req) ++ " event")])%list)).
  { unfold webhook, webhook_try.
    destruct (verifyGitHubSignature secret (body req) (signature req))
      as [o vlog] eqn:E.
    cbn [fst] in Hver. subst o.
    rewrite bindL_write. unfold bindL at 1. cbn [fst snd negb].
    rewrite Hparse, Hpush. cbn [negb]. rewrite bindL_write.
    cbn [fst snd pure app]. reflexivity. }
  split; [exact Hweb |].
  rewrite Hweb. cbn [snd]. intros [H | H]; [discriminate |].
  apply in_app_iff in H as [H | [H | []]].
  - now apply verify_log_levels in H.
  - discriminate.
Qed.

Lemma webhook_ignores_other_events_witness :
  webhook (Some "s") (fun _ => Some (JObj []))
    (Request (Some (sign sample_body "s")) (Some "issues") None sample_body)
  = (Response 200 (Ignored "issues event ignored" false),
     [Log Info "Webhook received"; Log Info "Ignoring issues event"])
  /\ ~ In (Log Info "Push event processed")
         (snd (webhook (Some "s") (fun _ => Some (JObj []))
                 (Request (Some (sign sample_body "s")) (Some "issues") None
                          sample_body))).
Proof.
  assert (V : verifyGitHubSignature (Some "s") sample_body
                (Some (sign sample_body "s")) = (Returned true, []))
    by (vm_compute; reflexivity).
  pose proof (@webhook_ignores_other_events (Some "s") (fun _ => Some (JObj []))
    (Request (Some (sign sample_body "s")) (Some "issues") None sample_body)
    (JObj [])) as W.
  cbn [body signature event] in W. rewrite V in W.
  apply W; solve [reflexivity | discriminate].
Defined.

(* ================================================================== *)
(** * Further properties of the verifier *)

Lemma truthy_nonempty (s : string) :
  JSString.truthy (Some s) = true <-> s <> "".
Proof. destruct s; cbn; split; congruence. Qed.

Lemma hmac_hex_truthy (key : string) (data : list byte) :
  JSString.truthy (Some (hmac_hex key data)) = true.
Proof.
  apply truthy_nonempty. intros E.
  pose proof (hmac_hex_length key data) as L. rewrite E in L. discriminate.
Qed.

(** X1 - With a secret configured and a signature header sent, the verifier
    returns [true] exactly when what [Buffer.from] reads from the header
    (the first ["sha256="] removed) is the digest; it returns [false]
    exactly when that is 32 bytes other than the digest, and throws
    exactly when it is not 32 bytes. *)
Theorem verify_outcome_cases (S T : string) (P : list byte) :
  JSString.truthy (Some S) = true ->
  JSString.truthy (Some T) = true ->
  (fst (verifyGitHubSignature (Some S) P (Some T)) = Returned true
   <-> Hex.decode (JSString.replace T "sha256=" "")
       = HMAC.sha256 (JSString.utf8 S) P)
  /\ (fst (verifyGitHubSignature (Some S) P (Some T)) = Returned false
      <-> List.length (Hex.decode (JSString.replace T "sha256=" "")) = 32
          /\ Hex.decode (JSString.replace T "sha256=" "")
             <> HMAC.sha256 (JSString.utf8 S) P)
  /\ (fst (verifyGitHubSignature (Some S) P (Some T)) = Threw RangeError
      <-> List.length (Hex.decode (JSString.replace T "sha256=" "")) <> 32).
Proof.
  intros HS HT. rewrite verify_checked by assumption. cbv zeta.
  set (provided := Hex.decode _). set (digest := HMAC.sha256 _ _).
  assert (Hd : List.length digest = 32) by apply hmac_length.
  destruct (Nat.eqb_spec (List.length provided) 32) as [L | L].
  - destruct (bytes_eqb digest provided) eqn:E; cbn [fst].
    + apply bytes_eqb_eq in E.
      repeat split; try discriminate; try congruence; intuition congruence.
    + assert (digest <> provided)
        by (intros C; apply bytes_eqb_eq in C; congruence).
      repeat split; try discriminate; try congruence; intuition congruence.
  - cbn [fst]. repeat split; try discriminate; try congruence;
      intuition congruence.
Qed.

Lemma verify_outcome_cases_witness :
  fst (verifyGitHubSignature (Some "s") sample_body
         (Some ("sha256=" ++ Hex.encode (repeat x00 32))))
  = Returned false.
Proof.
  apply (proj1 (proj2 (@verify_outcome_cases "s"
                         ("sha256=" ++ Hex.encode (repeat x00 32)) sample_body
                         eq_refl eq_refl))).
  split; [reflexivity | vm_compute; discriminate].
Defined.

Lemma contains_head_in (s t : string) (c : ascii) :
  contains s (String c t) -> In c (list_ascii_of_string s).
Proof.
  intros [pre [post ->]]. induction pre as [| d pre IH]; cbn; auto.
Qed.

Lemma digest_without_prefix (d : list byte) : ~ contains (Hex.encode d) "sha256=".
Proof.
  intros C. apply contains_head_in, encode_lowercase in C.
  cbv in C. intuition discriminate.
Qed.

(** X2 - The ["sha256="] in front is optional: the bare digest in hex is
    accepted as well. *)
Theorem verify_accepts_bare_digest (S : string) (P : list byte) :
  JSString.truthy (Some S) = true ->
  verifyGitHubSignature (Some S) P (Some (hmac_hex S P)) = (Returned true, []).
Proof.
  intros HS. rewrite verify_checked by (exact HS || apply hmac_hex_truthy).
  rewrite replace_absent by apply digest_without_prefix.
  unfold hmac_hex. rewrite decode_encode. cbv zeta.
  now rewrite hmac_length, bytes_eqb_refl.
Qed.

Lemma verify_accepts_bare_digest_witness :
  verifyGitHubSignature (Some "s") sample_body (Some (hmac_hex "s" sample_body))
  = (Returned true, []).
Proof. apply (@verify_accepts_bare_digest "s" sample_body). reflexivity. Defined.

Ltac settle_leb :=
  repeat match goal with
         | |- context [(?a <=? ?b)%N] =>
             first [ replace (a <=? b)%N with true
                       by (symmetry; apply N.leb_le; lia)
                   | replace (a <=? b)%N with false
                       by (symmetry; apply N.leb_gt; lia)
                   | destruct (N.leb_spec a b) ]
         end.

Lemma unhex_same_letter (x y : ascii) (v : N) :
  same_letter x y = true -> Hex.unhex y = Some v -> Hex.unhex x = Some v.
Proof.
  unfold same_letter, Hex.unhex. cbv zeta.
  set (n := N_of_ascii x). set (m := N_of_ascii y). intros H.
  apply orb_true_iff in H as [H | H]; [apply orb_true_iff in H as [H | H] |].
  - apply N.eqb_eq in H. now rewrite H.
  - apply andb_true_iff in H as [H E]. apply andb_true_iff in H as [L U].
    apply N.leb_le in L, U. apply N.eqb_eq in E. rewrite E.
    settle_leb; cbn [andb]; try discriminate; intros [= <-]; f_equal; lia.
  - apply andb_true_iff in H as [H E]. apply andb_true_iff in H as [L U].
    apply N.leb_le in L, U. apply N.eqb_eq in E. rewrite E.
    settle_leb; cbn [andb]; try discriminate; intros [= <-]; f_equal; lia.
Qed.

(** Hex text is read in either letter case. *)
Lemma decode_nocase (d : list byte) (h : string) :
  eq_nocase h (Hex.encode d) = true -> Hex.decode h = d.
Proof.
  revert h; induction d as [| b rest IH]; intros h E.
  - destruct h; [reflexivity | discriminate].
  - cbn [Hex.encode] in E.
    destruct h as [| x [| y h]]; cbn [eq_nocase] in E; try discriminate.
    + apply andb_true_iff in E as [_ E]. discriminate.
    + apply andb_true_iff in E as [Ex E]. apply andb_true_iff in E as [Ey E].
      cbn [Hex.decode].
      rewrite (unhex_same_letter _ _ Ex (unhex_digit_hi b)).
      rewrite (unhex_same_letter _ _ Ey (unhex_digit_lo b)).
      now rewrite byte_of_nibbles_hi_lo, IH.
Qed.

(** X3 - The digest is accepted in any letter case: every header that is
    ["sha256="] followed by the right digits, each letter in upper or in
    lower case, verifies. *)
Theorem verify_accepts_any_case (S h : string) (P : list byte) :
  JSString.truthy (Some S) = true ->
  eq_nocase h (hmac_hex S P) = true ->
  verifyGitHubSignature (Some S) P (Some ("sha256=" ++ h)) = (Returned true, []).
Proof.
  intros HS Hh. rewrite verify_checked by (exact HS || reflexivity).
  rewrite replace_leading. unfold hmac_hex in Hh.
  rewrite (decode_nocase _ _ Hh). cbv zeta.
  now rewrite hmac_length, bytes_eqb_refl.
Qed.

Lemma verify_accepts_any_case_witness :
  verifyGitHubSignature (Some "s") sample_body
    (Some "sha256=143CA8D517BA1B181025D732B1CF275D90104FCA57BB02A565542978AA18C4B6")
  = (Returned true, []).
Proof.
  apply (@verify_accepts_any_case "s"
           "143CA8D517BA1B181025D732B1CF275D90104FCA57BB02A565542978AA18C4B6"
           sample_body);
    [reflexivity | vm_compute; reflexivity].
Defined.

(** X5 - What the test client generates: nothing without a secret, otherwise
    ["sha256="] followed by 64 digits from [0-9a-f]. *)
Theorem generateSignature_format (payload : string) (secret : option string) :
  (JSString.truthy secret = false -> generateSignature payload secret = None)
  /\ (JSString.truthy secret = true ->
      exists h,
        generateSignature payload secret = Some ("sha256=" ++ h)
        /\ String.length h = 64
        /\ forall c, In c (list_ascii_of_string h) ->
                     In c (list_ascii_of_string "0123456789abcdef")).
Proof.
  unfold generateSignature. split; intros ->; cbn [negb]; [reflexivity |].
  eexists. split; [reflexivity |]. split; [apply hmac_hex_length |].
  intros c. unfold hmac_hex. apply encode_lowercase.
Qed.

Lemma generateSignature_format_witness :
  generateSignature "{}" None = None
  /\ exists h,
       generateSignature "{}" (Some "s") = Some ("sha256=" ++ h)
       /\ String.length h = 64
       /\ forall c, In c (list_ascii_of_string h) ->
                    In c (list_ascii_of_string "0123456789abcdef").
Proof.
  split.
  - apply (proj1 (generateSignature_format "{}" None)). reflexivity.
  - apply (proj2 (generateSignature_format "{}" (Some "s"))). reflexivity.
Defined.

(* ================================================================== *)
(** * Further properties of the classifier *)

Lemma readable_false (c : value) :
  readable c = false <-> c = JNull \/ c = JUndefined.
Proof.
  destruct c; cbn; split; try discriminate; try tauto;
    intros [H | H]; discriminate.
Qed.

Lemma add_list_unreadable (k : string) (commit : value) (set : list value) :
  readable commit = false -> add_list k commit set = Threw TypeError.
Proof. destruct commit; (discriminate || reflexivity). Qed.

(** The loop of [extractModifiedFiles] on any commit list: it throws at
    the first entry that cannot be read. *)
Lemma forEach_commits_cases (commits : list value) (set : list value) :
  forEach (fun set commit =>
             set1 <- add_list "added" commit set ;;
             set2 <- add_list "modified" commit set1 ;;
             add_list "removed" commit set2)
          commits set
  = if forallb readable commits
    then Returned (fold_left set_add (flat_map changed commits) set)
    else Threw TypeError.
Proof.
  revert set; induction commits as [| c commits IH]; intros set;
    [reflexivity |].
  cbn [forEach forallb flat_map]. destruct (readable c) eqn:Hc.
  - do 3 (rewrite add_list_listed by exact Hc; cbn [bind]).
    rewrite IH. cbn [andb]. unfold changed. now rewrite !fold_left_app.
  - now rewrite add_list_unreadable by exact Hc.
Qed.

(** X6 - A [null] among the commits: when [commits] is an array,
    [extractModifiedFiles] throws a [TypeError] exactly when one of its
    entries is [null] (or [undefined]), whatever the other commits list. *)
Theorem extractModifiedFiles_throws_on_null (payload : value)
    (commits : list value) :
  get payload "commits" = Returned (JArr commits) ->
  extractModifiedFiles payload = Threw TypeError
  <-> In JNull commits \/ In JUndefined commits.
Proof.
  intros Hget. unfold extractModifiedFiles. rewrite Hget.
  cbn [bind truthy isArray andb elements]. rewrite forEach_commits_cases.
  destruct (forallb readable commits) eqn:E.
  - split; [discriminate |]. rewrite forallb_forall in E.
    intros [H | H]; apply E in H; discriminate.
  - split; [intros _ | reflexivity].
    assert (X : exists c, In c commits /\ readable c = false).
    { clear Hget. induction commits as [| c commits IH]; [discriminate |].
      cbn [forallb] in E. destruct (readable c) eqn:Hc.
      - destruct (IH E) as [c' [Hin Hc']]. exists c'. cbn [In]. tauto.
      - exists c. cbn [In]. tauto. }
    destruct X as [c [Hin Hc]].
    apply readable_false in Hc as [-> | ->]; tauto.
Qed.

Lemma extractModifiedFiles_throws_on_null_witness :
  extractModifiedFiles
    (push_payload "refs/heads/main" (JArr [sample_commit; JNull]))
  = Threw TypeError.
Proof.
  apply (proj2 (@extractModifiedFiles_throws_on_null
                  (push_payload "refs/heads/main" (JArr [sample_commit; JNull]))
                  [sample_commit; JNull] eq_refl)).
  left. right. left. reflexivity.
Defined.

Lemma fold_set_add_extends (elems set : list value) :
  exists more, fold_left set_add elems set = (set ++ more)%list.
Proof.
  revert set; induction elems as [| x elems IH]; intros set; cbn [fold_left].
  - exists []. now rewrite app_nil_r.
  - destruct (IH (set_add set x)) as [more E]. rewrite E.
    unfold set_add. destruct (existsb _ set).
    + now exists more.
    + exists (x :: more). now rewrite <- app_assoc.
Qed.

(** X7 - Further commits only add files at the end: what is returned for a
    commit list is the beginning of what is returned for the list with
    more commits after it. *)
Theorem extractModifiedFiles_more_commits (payload payload' : value)
    (commits more : list value) :
  get payload "commits" = Returned (JArr commits) ->
  get payload' "commits" = Returned (JArr (commits ++ more)) ->
  forallb readable (commits ++ more) = true ->
  exists files added,
    extractModifiedFiles payload = Returned files
    /\ extractModifiedFiles payload' = Returned (files ++ added)%list.
Proof.
  intros Hget Hget' Hr.
  assert (Hr1 : forallb readable commits = true).
  { rewrite forallb_app in Hr. now apply andb_true_iff in Hr. }
  rewrite (extractModifiedFiles_closed_form _ Hget Hr1).
  rewrite (extractModifiedFiles_closed_form _ Hget' Hr).
  rewrite flat_map_app, fold_left_app.
  destruct (fold_set_add_extends (flat_map changed more)
              (fold_left set_add (flat_map changed commits) [])) as [added E].
  eexists _, added. split; [reflexivity | now rewrite E].
Qed.

Lemma extractModifiedFiles_more_commits_witness :
  exists files added,
    extractModifiedFiles (push_payload "refs/heads/main" (JArr [sample_commit]))
    = Returned files
    /\ extractModifiedFiles
         (push_payload "refs/heads/main" (JArr [sample_commit; sparse_commit]))
       = Returned (files ++ added)%list.
Proof.
  apply (@extractModifiedFiles_more_commits
           (push_payload "refs/heads/main" (JArr [sample_commit]))
           (push_payload "refs/heads/main" (JArr [sample_commit; sparse_commit]))
           [sample_commit] [sparse_commit]); reflexivity.
Defined.

Lemma fold_set_add_absorbed (elems set : list value) :
  (forall x, In x elems -> is_string x = true /\ In x set) ->
  fold_left set_add elems set = set.
Proof.
  induction elems as [| x elems IH]; intros H; cbn [fold_left]; [reflexivity |].
  assert (E : set_add set x = set).
  { destruct (H x) as [Hs Hin]; [now left |]. unfold set_add.
    enough (existsb (sameValueZero x) set = true) as -> by reflexivity.
    apply existsb_exists. exists x. split; [exact Hin |].
    now apply sameValueZero_string. }
  rewrite E. apply IH. intros y Hy. apply H. now right.
Qed.

(** X8 - Commits that list only files already listed change nothing: when
    every file of the later commits is a path listed by the earlier
    ones, the result is that of the earlier commits alone. *)
Theorem extractModifiedFiles_nothing_new (payload payload' : value)
    (commits more : list value) :
  get payload "commits" = Returned (JArr commits) ->
  get payload' "commits" = Returned (JArr (commits ++ more)) ->
  forallb commit_record (commits ++ more) = true ->
  (forall file, In file (flat_map changed more) ->
                In file (flat_map changed commits)) ->
  extractModifiedFiles payload' = extractModifiedFiles payload.
Proof.
  intros Hget Hget' Hrec Hold.
  pose proof (commit_records_readable _ Hrec) as Hr.
  assert (Hr1 : forallb readable commits = true).
  { rewrite forallb_app in Hr. now apply andb_true_iff in Hr. }
  rewrite (extractModifiedFiles_closed_form _ Hget Hr1).
  rewrite (extractModifiedFiles_closed_form _ Hget' Hr).
  rewrite flat_map_app, fold_left_app. f_equal.
  apply fold_set_add_absorbed. intros x Hx. split.
  - pose proof (commit_records_strings _ Hrec) as Hs.
    rewrite forallb_forall in Hs. apply Hs.
    rewrite flat_map_app, in_app_iff. now right.
  - apply fold_set_add_in. right. now apply Hold.
Qed.

Lemma extractModifiedFiles_nothing_new_witness :
  extractModifiedFiles
    (push_payload "refs/heads/main" (JArr [sample_commit; sample_commit]))
  = extractModifiedFiles (push_payload "refs/heads/main" (JArr [sample_commit])).
Proof.
  apply (@extractModifiedFiles_nothing_new
           (push_payload "refs/heads/main" (JArr [sample_commit]))
           (push_payload "refs/heads/main" (JArr [sample_commit; sample_commit]))
           [sample_commit] [sample_commit]); try reflexivity.
  intros file H. exact H.
Defined.

(** The four tests of [checkFilesOfInterest] on one path. *)
Lemma checkFilesOfInterest_strings (paths : list string) :
  checkFilesOfInterest (map JStr paths)
  = Returned
      (Interest
         (existsb (fun s => JSString.includes s "index.html") paths)
         (existsb (fun s => JSString.includes s "package.json") paths)
         (existsb (fun s => JSString.includes s ".env"
                            || JSString.includes s "config."
                            || JSString.includes s ".yml"
                            || JSString.includes s ".yaml") paths)
         (existsb (fun s =>
                     JSString.includes (JSString.toLowerCase s) "dockerfile"
                     || JSString.includes s "docker-compose") paths)).
Proof.
  unfold checkFilesOfInterest.
  rewrite (some_strings _ (fun s => JSString.includes s "index.html"))
    by reflexivity.
  rewrite (some_strings _ (fun s => JSString.includes s "package.json"))
    by reflexivity.
  rewrite (some_strings _
             (fun s => JSString.includes s ".env"
                       || JSString.includes s "config."
                       || JSString.includes s ".yml"
                       || JSString.includes s ".yaml")).
  2: { intros s. cbn [call_includes orelse bind].
       repeat (destruct (JSString.includes s _); try reflexivity). }
  rewrite (some_strings _
             (fun s => JSString.includes (JSString.toLowerCase s) "dockerfile"
                       || JSString.includes s "docker-compose")).
  2: { intros s. cbn [call_includes call_toLowerCase orelse bind].
       destruct (JSString.includes (JSString.toLowerCase s) _); reflexivity. }
  reflexivity.
Qed.

Lemma existsb_same_members {A : Type} (q : A -> bool) (l l' : list A) :
  (forall x, In x l <-> In x l') -> existsb q l = existsb q l'.
Proof.
  intros H. apply eq_true_iff_eq. rewrite !existsb_exists.
  split; intros [x [Hin Hq]]; exists x; split; auto; now apply H.
Qed.

(** X9 - The flags depend on which paths there are, not on their order or on
    how often each occurs. *)
Theorem checkFilesOfInterest_same_members (paths paths' : list string) :
  (forall p, In p paths <-> In p paths') ->
  checkFilesOfInterest (map JStr paths) = checkFilesOfInterest (map JStr paths').
Proof.
  intros H. rewrite !checkFilesOfInterest_strings.
  now rewrite !(existsb_same_members _ paths paths' H).
Qed.

Lemma checkFilesOfInterest_same_members_witness :
  checkFilesOfInterest (map JStr ["index.html"; "Dockerfile"; "index.html"])
  = checkFilesOfInterest (map JStr ["Dockerfile"; "index.html"]).
Proof.
  apply (@checkFilesOfInterest_same_members
           ["index.html"; "Dockerfile"; "index.html"] ["Dockerfile"; "index.html"]).
  intros p. cbn [In]. tauto.
Defined.

(** X10 - The flags of two lists of paths put together are, flag by flag, the
    disjunction of the flags of each. *)
Theorem checkFilesOfInterest_append (paths paths' : list string) :
  exists f f',
    checkFilesOfInterest (map JStr paths) = Returned f
    /\ checkFilesOfInterest (map JStr paths') = Returned f'
    /\ checkFilesOfInterest (map JStr (paths ++ paths'))
       = Returned (Interest (indexHtml f || indexHtml f')
                            (packageJson f || packageJson f')
                            (configFiles f || configFiles f')
                            (dockerfiles f || dockerfiles f')).
Proof.
  eexists _, _. rewrite !checkFilesOfInterest_strings.
  split; [reflexivity | split; [reflexivity |]].
  cbn [indexHtml packageJson configFiles dockerfiles].
  now rewrite !existsb_app.
Qed.

Lemma strings_of_values (files : list value) :
  forallb is_string files = true -> exists paths, files = map JStr paths.
Proof.
  induction files as [| x files IH]; intros H; [now exists [] |].
  cbn [forallb] in H. apply andb_true_iff in H as [Hx H].
  destruct (IH H) as [paths ->]. destruct x; try discriminate.
  now exists (s :: paths).
Qed.

Lemma map_JStr_in (p : string) (paths : list string) :
  In (JStr p) (map JStr paths) <-> In p paths.
Proof.
  rewrite in_map_iff. split.
  - intros [q [[= ->] H]]. exact H.
  - intros H. now exists p.
Qed.

(** On a push event neither [extractModifiedFiles] nor
    [checkFilesOfInterest] throws. *)
Lemma flags_of_extracted_files_helper (payload : value) (commits : list value) :
  get payload "commits" = Returned (JArr commits) ->
  forallb commit_record commits = true ->
  exists files flags,
    extractModifiedFiles payload = Returned files
    /\ checkFilesOfInterest files = Returned flags.
Proof.
  intros Hget Hrec.
  destruct (changed_files_characterised _ Hget Hrec) as [files [E [_ M]]].
  assert (Hs : forallb is_string files = true).
  { rewrite forallb_forall. intros x Hx. apply M in Hx as [c [Hc Hx]].
    pose proof (commit_records_strings _ Hrec) as S.
    rewrite forallb_forall in S. apply S. apply in_flat_map. now exists c. }
  destruct (strings_of_values _ Hs) as [paths ->].
  eexists _, _. split; [exact E | apply checkFilesOfInterest_strings].
Qed.

(** X11 - Removing the duplicates does not change the flags: on a push event
    the flags of the files [extractModifiedFiles] returns are those of
    all the entries the commits list, taken as they come. *)
Theorem flags_of_extracted_files (payload : value) (commits : list value) :
  get payload "commits" = Returned (JArr commits) ->
  forallb commit_record commits = true ->
  exists files flags,
    extractModifiedFiles payload = Returned files
    /\ checkFilesOfInterest files = Returned flags
    /\ checkFilesOfInterest (flat_map changed commits) = Returned flags.
Proof.
  intros Hget Hrec.
  destruct (changed_files_characterised _ Hget Hrec) as [files [E [_ M]]].
  assert (Hs : forallb is_string files = true).
  { rewrite forallb_forall. intros x Hx. apply M in Hx as [c [Hc Hx]].
    pose proof (commit_records_strings _ Hrec) as S.
    rewrite forallb_forall in S. apply S. apply in_flat_map. now exists c. }
  destruct (strings_of_values _ Hs) as [paths ->].
  destruct (strings_of_values _ (commit_records_strings _ Hrec)) as [all Hall].
  exists (map JStr paths). eexists. split; [exact E |].
  rewrite Hall. split; [apply checkFilesOfInterest_strings |].
  rewrite checkFilesOfInterest_strings.
  assert (H : forall p, In p all <-> In p paths).
  { intros p. rewrite <- !map_JStr_in, <- Hall, M, in_flat_map. tauto. }
  now rewrite !(existsb_same_members _ all paths H).
Qed.

Lemma flags_of_extracted_files_witness :
  exists files flags,
    extractModifiedFiles
      (push_payload "refs/heads/main" (JArr [sample_commit; sparse_commit]))
    = Returned files
    /\ checkFilesOfInterest files = Returned flags
    /\ checkFilesOfInterest (flat_map changed [sample_commit; sparse_commit])
       = Returned flags.
Proof.
  apply (@flags_of_extracted_files
           (push_payload "refs/heads/main" (JArr [sample_commit; sparse_commit]))
           [sample_commit; sparse_commit]); reflexivity.
Defined.

Lemma some_strings_then_throw (p : value -> outcome bool) (q : string -> bool)
    (pre : list string) (x : value) (rest : list value) :
  (forall s, p (JStr s) = Returned (q s)) ->
  p x = Threw TypeError ->
  some p (map JStr pre ++ x :: rest)
  = if existsb q pre then Returned true else Threw TypeError.
Proof.
  intros Hp Hx. induction pre as [| s pre IH]; cbn [map app some existsb bind].
  - now rewrite Hx.
  - rewrite Hp. cbn [bind]. destruct (q s); [reflexivity | exact IH].
Qed.

(** X12 - An entry that is neither a string nor an array (a number, a
    boolean, [null], an object) among the files: [checkFilesOfInterest]
    throws a [TypeError], unless the paths before it already set all
    four flags, in which case it is never looked at. *)
Theorem checkFilesOfInterest_non_string (pre : list string) (x : value)
    (rest : list value) (flags : interest) :
  is_string x = false -> isArray x = false ->
  checkFilesOfInterest (map JStr pre) = Returned flags ->
  checkFilesOfInterest (map JStr pre ++ x :: rest)
  = if indexHtml flags && packageJson flags && configFiles flags
       && dockerfiles flags
    then Returned flags else Threw TypeError.
Proof.
  intros Hs Ha. rewrite checkFilesOfInterest_strings. intros [= <-].
  cbn [indexHtml packageJson configFiles dockerfiles].
  assert (Hinc : forall needle, call_includes x needle = Threw TypeError)
    by (intros needle; destruct x; (discriminate || reflexivity)).
  assert (Hlow : call_toLowerCase x = Threw TypeError)
    by (destruct x; (discriminate || reflexivity)).
  unfold checkFilesOfInterest.
  rewrite (some_strings_then_throw _
             (fun s => JSString.includes s "index.html")); auto.
  destruct (existsb _ pre); [cbn [bind andb] | reflexivity].
  rewrite (some_strings_then_throw _
             (fun s => JSString.includes s "package.json")); auto.
  destruct (existsb _ pre); [cbn [bind andb] | reflexivity].
  rewrite (some_strings_then_throw _
             (fun s => JSString.includes s ".env"
                       || JSString.includes s "config."
                       || JSString.includes s ".yml"
                       || JSString.includes s ".yaml")).
  2: { intros s. cbn [call_includes orelse bind].
       repeat (destruct (JSString.includes s _); try reflexivity). }
  2: { unfold orelse. now rewrite Hinc. }
  destruct (existsb _ pre); [cbn [bind andb] | reflexivity].
  rewrite (some_strings_then_throw _
             (fun s => JSString.includes (JSString.toLowerCase s) "dockerfile"
                       || JSString.includes s "docker-compose")).
  2: { intros s. cbn [call_includes call_toLowerCase orelse bind].
       destruct (JSString.includes (JSString.toLowerCase s) _); reflexivity. }
  2: { unfold orelse. now rewrite Hlow. }
  destruct (existsb _ pre); reflexivity.
Qed.

Lemma checkFilesOfInterest_non_string_witness :
  checkFilesOfInterest (map JStr ["index.html"] ++ JNum 7 :: [])
  = Threw TypeError.
Proof.
  apply (@checkFilesOfInterest_non_string ["index.html"] (JNum 7) []
           (Interest true false false false)); reflexivity.
Defined.

(* ================================================================== *)
(** * Further properties of push processing and of the pipeline *)

(** X13 - What [processPushEvent] writes: nothing at all when it throws;
    otherwise its line about the processed event, followed by one line
    for each flag that is set, in the order of the flags. *)
Theorem processPushEvent_log (payload : value) :
  snd (processPushEvent payload)
  = match fst (processPushEvent payload) with
    | Returned r =>
        Log Info "Push event processed" :: triggers (filesOfInterest r)
    | Threw _ => []
    end.
Proof.
  unfold processPushEvent.
  do 7 (step_lift; [| reflexivity]).
  rewrite bindL_write, !bindL_when. cbn [fst snd pure filesOfInterest].
  unfold triggers. now rewrite app_nil_r.
Qed.

(** X14 - [processPushEvent] returns only for a payload that has a readable
    [repository] and [pusher], a string as [ref] and a readable
    [commits]; for any other payload it throws. *)
Theorem processPushEvent_needs (payload : value) (r : pushResult) :
  fst (processPushEvent payload) = Returned r ->
  exists repo pusher ref commits,
    get payload "repository" = Returned repo /\ readable repo = true
    /\ get payload "pusher" = Returned pusher /\ readable pusher = true
    /\ get payload "ref" = Returned (JStr ref)
    /\ get payload "commits" = Returned commits /\ readable commits = true
    /\ get repo "full_name" = Returned (repository r).
Proof.
  unfold processPushEvent.
  do 7 (step_lift; [| discriminate]).
  rewrite bindL_write, !bindL_when. cbn [fst pure]. intros [= <-].
  cbn [repository].
  repeat match goal with
         | H : bind (get payload ?k) _ = Returned _ |- _ =>
             let v := fresh "v" in
             destruct (get payload k) as [v |] eqn:?; [| discriminate];
             cbn [bind] in H
         end.
  match goal with H : call_replace ?v _ _ = Returned _ |- _ =>
    destruct v; try discriminate end.
  eexists _, _, _, _.
  repeat match goal with |- _ /\ _ => split end;
    try eassumption; try reflexivity;
    match goal with
    | H : get ?x _ = Returned _ |- readable ?x = true =>
        destruct x; (discriminate || reflexivity)
    end.
Qed.

Lemma processPushEvent_needs_witness :
  exists repo pusher ref commits,
    get (push_payload "refs/heads/main" (JArr [sample_commit])) "repository"
    = Returned repo /\ readable repo = true
    /\ get (push_payload "refs/heads/main" (JArr [sample_commit])) "pusher"
       = Returned pusher /\ readable pusher = true
    /\ get (push_payload "refs/heads/main" (JArr [sample_commit])) "ref"
       = Returned (JStr ref)
    /\ get (push_payload "refs/heads/main" (JArr [sample_commit])) "commits"
       = Returned commits /\ readable commits = true
    /\ get repo "full_name" = Returned (JStr "octo/repo").
Proof.
  apply (@processPushEvent_needs
           (push_payload "refs/heads/main" (JArr [sample_commit]))
           (PushResult true (JStr "octo/repo") "main"
              [JStr "index.html"; JStr "src/app.js"]
              (Interest true false false false))).
  reflexivity.
Defined.

(** The result of [processPushEvent] on a well-formed push event. *)
Lemma processPushEvent_on_push_event (payload repo pusher : value)
    (ref : string) (commits : list value) :
  get payload "repository" = Returned repo -> readable repo = true ->
  get payload "pusher" = Returned pusher -> readable pusher = true ->
  get payload "ref" = Returned (JStr ref) ->
  get payload "commits" = Returned (JArr commits) ->
  forallb commit_record commits = true ->
  exists name files flags,
    get repo "full_name" = Returned name
    /\ extractModifiedFiles payload = Returned files
    /\ checkFilesOfInterest files = Returned flags
    /\ fst (processPushEvent payload)
       = Returned (PushResult true name
                     (JSString.replace ref "refs/heads/" "") files flags).
Proof.
  intros Hrepo Rrepo Hpusher Rpusher Href Hcommits Hrec.
  destruct (flags_of_extracted_files_helper payload Hcommits Hrec)
    as [files [flags [E F]]].
  assert (Hname : exists name, get repo "full_name" = Returned name)
    by (destruct repo; try discriminate; eexists; reflexivity).
  destruct Hname as [name Hname].
  assert (Hpn : exists n, get pusher "name" = Returned n)
    by (destruct pusher; try discriminate; eexists; reflexivity).
  destruct Hpn as [pn Hpn].
  exists name, files, flags. repeat split; try assumption.
  unfold processPushEvent.
  rewrite Hrepo. cbn [bind]. rewrite Hname, bindL_lift.
  rewrite Hpusher. cbn [bind]. rewrite Hpn, bindL_lift.
  rewrite Href, bindL_lift. cbn [call_replace]. rewrite bindL_lift.
  rewrite E, bindL_lift, F, bindL_lift.
  rewrite Hcommits. cbn [bind get]. rewrite bindL_lift.
  rewrite bindL_write, !bindL_when. reflexivity.
Qed.

(** X15 - A well-formed push event is processed: with a readable [repository]
    and [pusher], a string as [ref] and an array of commit records as
    [commits], [processPushEvent] returns [processed: true], the
    repository's [full_name], the ref without its first ["refs/heads/"],
    the files of [extractModifiedFiles] and their flags. *)
Theorem processPushEvent_push_event (payload repo pusher : value)
    (ref : string) (commits : list value) :
  get payload "repository" = Returned repo -> readable repo = true ->
  get payload "pusher" = Returned pusher -> readable pusher = true ->
  get payload "ref" = Returned (JStr ref) ->
  get payload "commits" = Returned (JArr commits) ->
  forallb commit_record commits = true ->
  exists name files flags,
    get repo "full_name" = Returned name
    /\ extractModifiedFiles payload = Returned files
    /\ checkFilesOfInterest files = Returned flags
    /\ fst (processPushEvent payload)
       = Returned (PushResult true name
                     (JSString.replace ref "refs/heads/" "") files flags).
Proof. apply processPushEvent_on_push_event. Qed.

Lemma processPushEvent_push_event_witness :
  exists name files flags,
    get (JObj [("full_name", JStr "octo/repo")]) "full_name" = Returned name
    /\ extractModifiedFiles
         (push_payload "refs/heads/main" (JArr [sample_commit; sparse_commit]))
       = Returned files
    /\ checkFilesOfInterest files = Returned flags
    /\ fst (processPushEvent
              (push_payload "refs/heads/main" (JArr [sample_commit; sparse_commit])))
       = Returned (PushResult true name
                     (JSString.replace "refs/heads/main" "refs/heads/" "")
                     files flags).
Proof.
  apply (@processPushEvent_push_event
           (push_payload "refs/heads/main" (JArr [sample_commit; sparse_commit]))
           (JObj [("full_name", JStr "octo/repo")])
           (JObj [("name", JStr "octo")])
           "refs/heads/main" [sample_commit; sparse_commit]); reflexivity.
Defined.

(** The handler, branch by branch. *)
Lemma webhook_cases (secret : option string)
    (parse : list byte -> option value) (req : request) :
  webhook secret parse req
  = let v := verifyGitHubSignature secret (body req) (signature req) in
    let received := Log Info "Webhook received" in
    match fst v with
    | Threw _ =>
        (Response 500 (Failure "Internal Server Error" "Failed to process webhook"),
         (received :: snd v ++ [Log Error "Webhook processing error"])%list)
    | Returned false =>
        (Response 401 (Failure "Unauthorized" "Invalid signature"),
         (received :: snd v
            ++ [Log Error "Webhook signature verification failed"])%list)
    | Returned true =>
        match parse (body req) with
        | None =>
            (Response 400 (Failure "Bad Request" "Invalid JSON payload"),
             (received :: snd v
                ++ [Log Error "Failed to parse webhook payload"])%list)
        | Some payload =>
            if match event req with
               | Some e => String.eqb e "push"
               | None => false
               end
            then
              match fst (processPushEvent payload) with
              | Returned r =>
                  (Response 200 (Processed "Webhook processed successfully"
                                           (delivery req) r),
                   (received :: snd v ++ snd (processPushEvent payload))%list)
              | Threw _ =>
                  (Response 500
                     (Failure "Internal Server Error" "Failed to process webhook"),
                   (received :: snd v ++ snd (processPushEvent payload)
                      ++ [Log Error "Webhook processing error"])%list)
              end
            else
              (Response 200
                 (Ignored (interpolate (event req) ++ " event ignored") false),
               (received :: snd v
                  ++ [Log Info ("Ignoring " ++ interpolate (event req)
                                  ++ " event")])%list)
        end
    end.
Proof.
  unfold webhook, webhook_try. cbv zeta.
  destruct (verifyGitHubSignature secret (body req) (signature req))
    as [o vlog].
  unfold bindL, write, pure. cbn [fst snd].
  destruct o as [[|] | e]; cbn [negb fst snd app]; try reflexivity.
  destruct (parse (body req)) as [payload |]; [| reflexivity].
  destruct (match event req with Some e => String.eqb e "push" | None => false end);
    cbn [negb]; [| reflexivity].
  destruct (processPushEvent payload) as [[r | e] plog];
    cbn [fst snd app]; [now rewrite app_nil_r | now rewrite app_assoc].
Qed.

(** X17 - Which status the handler answers with a request that has a body
    (the raw parser leaves a buffer only then): 401 exactly when the
    verifier returns [false]; 400 exactly when the request is verified
    and the body does not parse, whatever the event type; 500 exactly
    when the verifier throws or a verified, parsed push event makes
    [processPushEvent] throw; and 200 in every other case. *)
Theorem webhook_status_cases (secret : option string)
    (parse : list byte -> option value) (req : request) :
  body req <> [] ->
  let v := fst (verifyGitHubSignature secret (body req) (signature req)) in
  let st := status (fst (webhook secret parse req)) in
  (st = 401%Z <-> v = Returned false)
  /\ (st = 400%Z <-> v = Returned true /\ parse (body req) = None)
  /\ (st = 500%Z
      <-> (exists e, v = Threw e)
          \/ (v = Returned true
              /\ event req = Some "push"
              /\ exists payload e,
                   parse (body req) = Some payload
                   /\ fst (processPushEvent payload) = Threw e))
  /\ (st = 200%Z \/ st = 400%Z \/ st = 401%Z \/ st = 500%Z).
Proof.
  intros _. cbv zeta. rewrite webhook_cases. cbv zeta.
  destruct (fst (verifyGitHubSignature secret (body req) (signature req)))
    as [[|] | e].
  - destruct (parse (body req)) as [payload |].
    + destruct (event req) as [ev |].
      * destruct (String.eqb_spec ev "push") as [-> | Hev].
        -- destruct (fst (processPushEvent payload)) as [r | e] eqn:E;
             cbn [fst status]; (split; [| split; [| split]]);
             try (split; intros; discriminate);
             try (split; [discriminate | intros [_ [=]]]);
             try (left; reflexivity); try (do 3 right; reflexivity).
           ++ split; [discriminate |].
              intros [[e [=]] | [_ [_ [p [e [[= <-] H]]]]]]. congruence.
           ++ split; [intros _ | reflexivity].
              right. split; [reflexivity | split; [reflexivity |]].
              now exists payload, e.
        -- cbn [fst status]; (split; [| split; [| split]]);
             try (split; intros; discriminate);
             try (split; [discriminate | intros [_ [=]]]);
             try (left; reflexivity).
           split; [discriminate |].
           intros [[e [=]] | [_ [[= H] _]]]. congruence.
      * cbn [fst status]; (split; [| split; [| split]]);
          try (split; intros; discriminate);
          try (split; [discriminate | intros [_ [=]]]);
          try (left; reflexivity).
        split; [discriminate |]. intros [[e [=]] | [_ [[=] _]]].
    + cbn [fst status]; (split; [| split; [| split]]);
        try (split; intros; discriminate);
        try (right; left; reflexivity).
      * split; [intros _; now split | reflexivity].
      * split; [discriminate |].
        intros [[e [=]] | [_ [_ [p [e [[=] _]]]]]].
  - cbn [fst status]; (split; [| split; [| split]]);
      try (split; intros; reflexivity);
      try (do 2 right; left; reflexivity).
    + split; [discriminate | intros [[=] _]].
    + split; [discriminate |]. intros [[e [=]] | [[=] _]].
  - cbn [fst status]; (split; [| split; [| split]]);
      try (split; intros; discriminate);
      try (do 3 right; reflexivity).
    + split; [discriminate | intros [[=] _]].
    + split; [intros _ | reflexivity]. left. now exists e.
Qed.

Lemma webhook_status_cases_witness :
  status (fst (webhook (Some "s") (fun _ => None)
                 (Request None (Some "push") None sample_body)))
  = 401%Z.
Proof.
  apply (proj1 (@webhook_status_cases (Some "s") (fun _ => None)
                  (Request None (Some "push") None sample_body)
                  ltac:(discriminate))).
  reflexivity.
Defined.





(* ================================================================== *)
(** * Properties of the test client, and of client and server together *)

Lemma verify_right_token (S : string) (P : list byte) :
  JSString.truthy (Some S) = true ->
  verifyGitHubSignature (Some S) P (Some ("sha256=" ++ hmac_hex S P))
  = (Returned true, []).
Proof.
  intros HS. rewrite verify_checked by (exact HS || reflexivity).
  rewrite replace_leading. unfold hmac_hex.
  rewrite decode_encode. cbv zeta.
  now rewrite hmac_length, bytes_eqb_refl.
Qed.

Lemma sendWebhook_request_signed (S eventType payloadString uuid : string) :
  JSString.truthy (Some S) = true ->
  sendWebhook_request (Some S) eventType payloadString uuid
  = Request (Some ("sha256=" ++ hmac_hex S (JSString.utf8 payloadString)))
            (Some eventType) (Some uuid) (JSString.utf8 payloadString).
Proof.
  intros HS. unfold sendWebhook_request, generateSignature.
  rewrite HS. reflexivity.
Qed.

(** X20 - A request of the test client (its payload string not empty) is
    verified by a server that is configured with the secret the client
    signs with: the verifier returns [true] and the answer is never
    401. *)
Theorem sendWebhook_same_secret_verified (S eventType payloadString uuid : string)
    (parse : list byte -> option value) :
  payloadString <> "" ->
  JSString.truthy (Some S) = true ->
  let req := sendWebhook_request (Some S) eventType payloadString uuid in
  verifyGitHubSignature (Some S) (body req) (signature req) = (Returned true, [])
  /\ status (fst (webhook (Some S) parse req)) <> 401%Z.
Proof.
  intros _ HS. cbv zeta. rewrite sendWebhook_request_signed by exact HS.
  cbn [body signature].
  pose proof (@verify_right_token S (JSString.utf8 payloadString) HS) as V.
  split; [exact V |].
  rewrite webhook_cases. cbv zeta. cbn [body signature event delivery].
  rewrite V. cbn [fst snd].
  destruct (parse _) as [payload |]; [| discriminate].
  destruct (String.eqb eventType "push"); [| discriminate].
  destruct (fst (processPushEvent payload)); discriminate.
Qed.

Lemma sendWebhook_same_secret_verified_witness :
  verifyGitHubSignature (Some "s")
    (body (sendWebhook_request (Some "s") "push" "{}" "d-1"))
    (signature (sendWebhook_request (Some "s") "push" "{}" "d-1"))
  = (Returned true, [])
  /\ status (fst (webhook (Some "s") (fun _ => Some (JObj []))
                    (sendWebhook_request (Some "s") "push" "{}" "d-1")))
     <> 401%Z.
Proof.
  apply (@sendWebhook_same_secret_verified "s" "push" "{}" "d-1"
           (fun _ => Some (JObj []))); [discriminate | reflexivity].
Defined.

(** X21 - A request of the test client (its payload string not empty) is
    refused with 401 by a server with a secret configured when the
    client has no secret (it then sends no signature header), and when
    it signs with a secret under which the digest of the body is another
    one. *)
Theorem sendWebhook_other_secret_rejected (S : string) (secret' : option string)
    (eventType payloadString uuid : string) (parse : list byte -> option value) :
  payloadString <> "" ->
  JSString.truthy (Some S) = true ->
  (JSString.truthy secret' = false
   \/ HMAC.sha256 (JSString.utf8 (JSString.text_of secret'))
                  (JSString.utf8 payloadString)
      <> HMAC.sha256 (JSString.utf8 S) (JSString.utf8 payloadString)) ->
  fst (webhook (Some S) parse
         (sendWebhook_request secret' eventType payloadString uuid))
  = Response 401 (Failure "Unauthorized" "Invalid signature").
Proof.
  intros _ HS H. rewrite webhook_cases. cbv zeta.
  assert (V : fst (verifyGitHubSignature (Some S)
                     (body (sendWebhook_request secret' eventType payloadString uuid))
                     (signature (sendWebhook_request secret' eventType
                                   payloadString uuid)))
              = Returned false).
  { destruct (JSString.truthy secret') eqn:HS'.
    - destruct H as [H | H]; [discriminate |].
      destruct secret' as [S' |]; [| discriminate].
      rewrite sendWebhook_request_signed by exact HS'.
      cbn [body signature JSString.text_of] in *.
      rewrite verify_checked by (exact HS || reflexivity).
      rewrite replace_leading. unfold hmac_hex.
      rewrite decode_encode. cbv zeta. rewrite hmac_length. cbn [Nat.eqb].
      rewrite bytes_eqb_neq by congruence. reflexivity.
    - unfold sendWebhook_request, generateSignature. rewrite HS'.
      cbn [negb JSString.truthy body signature].
      destruct S; [discriminate | reflexivity]. }
  now rewrite V.
Qed.

Lemma sendWebhook_other_secret_rejected_witness :
  fst (webhook (Some "s") (fun _ => Some (JObj []))
         (sendWebhook_request (Some "wrong_secret") "push" "{}" "d-1"))
  = Response 401 (Failure "Unauthorized" "Invalid signature")
  /\ fst (webhook (Some "s") (fun _ => Some (JObj []))
            (sendWebhook_request None "push" "{}" "d-1"))
     = Response 401 (Failure "Unauthorized" "Invalid signature").
Proof.
  split.
  - apply (@sendWebhook_other_secret_rejected "s" (Some "wrong_secret")
             "push" "{}" "d-1" (fun _ => Some (JObj [])));
      [discriminate | reflexivity |].
    right. vm_compute. discriminate.
  - apply (@sendWebhook_other_secret_rejected "s" None
             "push" "{}" "d-1" (fun _ => Some (JObj [])));
      [discriminate | reflexivity |].
    left. reflexivity.
Defined.

Lemma filter_index_in {A : Type} (p : nat -> bool) (start : nat) (l : list A)
    (x : A) :
  In x (filter_index p start l)
  <-> exists j, nth_error l j = Some x /\ p (start + j) = true.
Proof.
  revert start; induction l as [| y l IH]; intros start; cbn [filter_index].
  - split; [intros [] | intros [[| j] [H _]]; discriminate].
  - destruct (p start) eqn:Hp; cbn [In]; rewrite IH; split.
    + intros [-> | [j [Hj Hpj]]].
      * exists 0. now rewrite Nat.add_0_r.
      * exists (S j). now rewrite Nat.add_succ_r.
    + intros [[| j] [Hj Hpj]].
      * left. now injection Hj.
      * right. exists j. now rewrite Nat.add_succ_r in Hpj.
    + intros [j [Hj Hpj]]. exists (S j). now rewrite Nat.add_succ_r.
    + intros [[| j] [Hj Hpj]].
      * rewrite Nat.add_0_r in Hpj. congruence.
      * exists j. now rewrite Nat.add_succ_r in Hpj.
Qed.

(** Every file of the list is added, removed or modified, and nothing
    else is. *)
Lemma files_by_index (files : list string) (x : string) :
  In x files
  <-> In x (filter_index (fun i => Nat.eqb (Nat.modulo i 3) 0) 0 files)
      \/ In x (filter_index (fun i => Nat.eqb (Nat.modulo i 3) 2) 0 files)
      \/ In x (filter_index (fun i => Nat.eqb (Nat.modulo i 3) 1) 0 files).
Proof.
  rewrite !filter_index_in. split.
  - intros H. apply In_nth_error in H as [j Hj].
    pose proof (Nat.mod_upper_bound j 3 ltac:(lia)) as B.
    destruct (Nat.modulo j 3) as [| [| [| k]]] eqn:E; [| | | lia].
    + left. exists j. cbn [Nat.add]. now rewrite E.
    + right. right. exists j. cbn [Nat.add]. now rewrite E.
    + right. left. exists j. cbn [Nat.add]. now rewrite E.
  - intros [[j [Hj _]] | [[j [Hj _]] | [j [Hj _]]]];
      eapply nth_error_In; eassumption.
Qed.

Lemma forallb_is_string (paths : list string) :
  forallb is_string (map JStr paths) = true.
Proof. induction paths; [reflexivity | exact IHpaths]. Qed.

Lemma changed_test_commit (config : pushConfig) (timestamp : string) :
  changed (test_commit config timestamp)
  = (map JStr (filter_index (fun i => Nat.eqb (Nat.modulo i 3) 0) 0
                 (cfg_files config))
     ++ map JStr (filter_index (fun i => Nat.eqb (Nat.modulo i 3) 2) 0
                    (cfg_files config))
     ++ map JStr (filter_index (fun i => Nat.eqb (Nat.modulo i 3) 1) 0
                    (cfg_files config)))%list.
Proof. reflexivity. Qed.

Lemma test_commit_record (config : pushConfig) (timestamp : string) :
  commit_record (test_commit config timestamp) = true.
Proof.
  unfold commit_record. rewrite changed_test_commit.
  cbn [readable test_commit andb].
  now rewrite !forallb_app, !forallb_is_string.
Qed.

(** X22 - The push payload of the test client gives back its files: for
    every choice of options, [extractModifiedFiles] returns, without
    duplicates, exactly the configured files (the given ones, or the two
    default ones). *)
Theorem createPushPayload_files (options : pushOptions) (now1 now2 : string) :
  exists files,
    extractModifiedFiles (createPushPayload options now1 now2)
    = Returned (map JStr files)
    /\ NoDup files
    /\ forall p, In p files <-> In p (cfg_files (merge_defaults options)).
Proof.
  set (config := merge_defaults options).
  assert (Hget : get (createPushPayload options now1 now2) "commits"
                 = Returned (JArr [test_commit config now1])) by reflexivity.
  assert (Hrec : forallb commit_record [test_commit config now1] = true).
  { cbn [forallb]. now rewrite test_commit_record. }
  destruct (changed_files_characterised _ Hget Hrec) as [files [E [N M]]].
  assert (Hs : forallb is_string files = true).
  { rewrite forallb_forall. intros x Hx. apply M in Hx as [c [Hc Hx]].
    pose proof (commit_records_strings _ Hrec) as S.
    rewrite forallb_forall in S. apply S. apply in_flat_map. now exists c. }
  destruct (strings_of_values _ Hs) as [paths ->].
  exists paths. split; [exact E | split].
  - clear - N. induction paths as [| p paths IH]; [constructor |].
    cbn [map] in N. apply NoDup_cons_iff in N as [Hn N].
    constructor; [| now apply IH].
    intros C. apply Hn. now apply map_JStr_in.
  - intros p. rewrite <- map_JStr_in, M, files_by_index. split.
    + intros [c [[<- | []] Hc]]. rewrite changed_test_commit in Hc.
      rewrite !in_app_iff, !map_JStr_in in Hc. exact Hc.
    + intros H. exists (test_commit config now1). split; [now left |].
      rewrite changed_test_commit, !in_app_iff, !map_JStr_in. exact H.
Qed.

(** X23 - The push payload of the test client is processed: for every choice
    of options [processPushEvent] returns, with [processed: true], the
    configured repository name and the configured branch. *)
Theorem createPushPayload_processed (options : pushOptions) (now1 now2 : string) :
  exists files flags,
    fst (processPushEvent (createPushPayload options now1 now2))
    = Returned (PushResult true
                  (JStr (cfg_repository (merge_defaults options)))
                  (cfg_branch (merge_defaults options)) files flags).
Proof.
  set (config := merge_defaults options).
  assert (Hrec : forallb commit_record [test_commit config now1] = true).
  { cbn [forallb]. now rewrite test_commit_record. }
  destruct (@processPushEvent_on_push_event
              (createPushPayload options now1 now2) _ _ _ _
              eq_refl eq_refl eq_refl eq_refl eq_refl eq_refl Hrec)
    as [name [files [flags [Hname [_ [_ H]]]]]].
  injection Hname as <-. exists files, flags. rewrite H.
  do 2 f_equal.
  exact (replace_leading "refs/heads/" (cfg_branch (merge_defaults options))).
Qed.

(** X24 - Client and server together: a push request of the test client
    carrying its push payload, sent to a server configured with the
    client's secret, is answered 200 with [processed: true], the
    delivery identifier of the request, the configured repository name
    and the configured branch. *)
Theorem tester_push_processed (S payloadString uuid : string)
    (options : pushOptions) (now1 now2 : string)
    (parse : list byte -> option value) :
  payloadString <> "" ->
  JSString.truthy (Some S) = true ->
  parse (JSString.utf8 payloadString)
  = Some (createPushPayload options now1 now2) ->
  exists files flags,
    fst (webhook (Some S) parse
           (sendWebhook_request (Some S) "push" payloadString uuid))
    = Response 200
        (Processed "Webhook processed successfully" (Some uuid)
           (PushResult true
              (JStr (cfg_repository (merge_defaults options)))
              (cfg_branch (merge_defaults options)) files flags)).
Proof.
  intros _ HS Hparse.
  set (config := merge_defaults options).
  assert (Hrec : forallb commit_record [test_commit config now1] = true).
  { cbn [forallb]. now rewrite test_commit_record. }
  destruct (@processPushEvent_on_push_event
              (createPushPayload options now1 now2) _ _ _ _
              eq_refl eq_refl eq_refl eq_refl eq_refl eq_refl Hrec)
    as [name [files [flags [Hname [_ [_ H]]]]]].
  injection Hname as <-.
  assert (H' : fst (processPushEvent (createPushPayload options now1 now2))
               = Returned (PushResult true
                             (JStr (cfg_repository (merge_defaults options)))
                             (cfg_branch (merge_defaults options)) files flags)).
  { rewrite H. do 2 f_equal.
    exact (replace_leading "refs/heads/" (cfg_branch (merge_defaults options))). }
  clear H. rename H' into H.
  exists files, flags.
  rewrite webhook_cases. cbv zeta.
  rewrite sendWebhook_request_signed by exact HS.
  cbn [body signature event delivery].
  rewrite (@verify_right_token S (JSString.utf8 payloadString) HS).
  cbn [fst snd]. rewrite Hparse. cbn [String.eqb Ascii.eqb Bool.eqb].
  now rewrite H.
Qed.

Lemma tester_push_processed_witness :
  exists files flags,
    fst (webhook (Some "s")
           (fun _ => Some (createPushPayload (PushOptions None None None None)
                             "2024-01-01T00:00:00.000Z"
                             "2024-01-01T00:00:00.001Z"))
           (sendWebhook_request (Some "s") "push" "{}" "d-1"))
    = Response 200
        (Processed "Webhook processed successfully" (Some "d-1")
           (PushResult true (JStr "testuser/test-repo") "main" files flags)).
Proof.
  apply (@tester_push_processed "s" "{}" "d-1"
           (PushOptions None None None None)
           "2024-01-01T00:00:00.000Z" "2024-01-01T00:00:00.001Z"
           (fun _ => Some (createPushPayload (PushOptions None None None None)
                             "2024-01-01T00:00:00.000Z"
                             "2024-01-01T00:00:00.001Z")));
    solve [discriminate | reflexivity].
Defined.

(** X16 - The branch [processPushEvent] reports: a ref that starts with
    ["refs/heads/"] is reported without this prefix, and a ref in which
    ["refs/heads/"] does not occur (a tag ref, say) is reported as it
    is. *)
Theorem processPushEvent_branch (payload : value) (r : pushResult)
    (ref : string) :
  fst (processPushEvent payload) = Returned r ->
  get payload "ref" = Returned (JStr ref) ->
  (forall name, ref = "refs/heads/" ++ name -> branch r = name)
  /\ (~ contains ref "refs/heads/" -> branch r = ref).
Proof.
  intros H Href. apply processPushEvent_returned in H
    as [ref' [files [flags [Href' [_ [_ [_ [Hb _]]]]]]]].
  rewrite Href in Href'. injection Href' as <-. rewrite Hb. split.
  - intros name ->. exact (replace_leading "refs/heads/" name).
  - apply replace_absent.
Qed.

Lemma processPushEvent_branch_witness :
  (forall name, "refs/heads/feature/x" = "refs/heads/" ++ name ->
                "feature/x" = name)
  /\ (~ contains "refs/heads/feature/x" "refs/heads/" ->
      "feature/x" = "refs/heads/feature/x").
Proof.
  apply (@processPushEvent_branch
           (push_payload "refs/heads/feature/x" (JArr [sample_commit]))
           (PushResult true (JStr "octo/repo") "feature/x"
              [JStr "index.html"; JStr "src/app.js"]
              (Interest true false false false))
           "refs/heads/feature/x"); reflexivity.
Defined.

Lemma verify_trailing_junk_accepted_witness :
  verifyGitHubSignature (Some "s") sample_body
    (Some (sign sample_body "s" ++ String "z" "zz"))
  = (Returned true, []).
Proof.
  apply (@verify_trailing_junk_accepted "s" "zz" sample_body "z");
    reflexivity.
Defined.
